(** * xk6-slack: metric extraction, message rendering and client guards

    A shallow embedding of the Go sources of the k6 Slack extension:
    - [src/slack.go]: [Configure (token, channel)], [SendMessage (text)],
      [SendTestResults (data)] with its helper [getMetricValue];
    - [src/unnamed/part_002]: the second client version with
      [Configure (token, config, user)], [createDashboardLinks],
      [createButtonBlocks], [createGraphBlocks], [SendMessage (messageType)]
      and [AddTestMetrics].

    Go's [float64] is Rocq's primitive binary64 [float]; Go's [int64] is [Z]
    with its wrap-around written out; Go maps are stdpp [gmap]s, and a
    [range] over a map is an explicit iteration order (any permutation of
    the map's entries), since Go leaves that order unspecified. *)

From Stdlib Require Import ZArith PrimFloat SpecFloat FloatOps FloatAxioms Uint63.
From stdpp Require Import base list gmap strings pretty.
From Equations Require Import Equations.

Set Warnings "-register-all -inexact-float".
Open Scope string_scope.

(* ------------------------------------------------------------------ *)
(** ** Go's fmt verbs used by the code *)

(** Decimal digits of [n], left-padded with '0' to [w] characters
    (the fractional part printed by [%.<w>f]). *)
Definition pad_zeros (w : nat) (s : string) : string :=
  String.append (String.concat "" (repeat "0" (w - String.length s))) s.

(** Rounding [num / den] to the nearest integer, ties to even: strconv's
    [decimal.Round] on the exact decimal expansion of a float64. *)
Definition round_half_even (num den : Z) : Z :=
  let q := (num / den)%Z in
  let r := (num mod den)%Z in
  if (den <? 2 * r)%Z then (q + 1)%Z
  else if (2 * r =? den)%Z then (if Z.odd q then (q + 1)%Z else q)
  else q.

(** The exact value of a finite float, [m * 2^e], times [10^p], rounded
    to an integer. *)
Definition scaled_digits (p : nat) (m : positive) (e : Z) : Z :=
  if (0 <=? e)%Z then (Z.pos m * 2 ^ e * 10 ^ Z.of_nat p)%Z
  else round_half_even (Z.pos m * 10 ^ Z.of_nat p) (2 ^ (- e)).

Definition sign_prefix (neg : bool) : string := if neg then "-" else "".

(** Fixed-point digits with [p] decimals of the non-negative integer [n]
    (which already holds the value times [10^p]). *)
Definition fixed_digits (p : nat) (n : Z) : string :=
  let ip := (n / 10 ^ Z.of_nat p)%Z in
  let fp := (n mod 10 ^ Z.of_nat p)%Z in
  match p with
  | O => pretty ip
  | S _ => String.append (pretty ip) (String.append "." (pad_zeros p (pretty fp)))
  end.

(** [fmt.Sprintf("%.<p>f", x)] for a float64 [x]: the sign bit is kept
    (also on zero), infinities print as "+Inf"/"-Inf" and NaN as "NaN". *)
Definition fmt_f (p : nat) (x : float) : string :=
  match Prim2SF x with
  | S754_zero s => String.append (sign_prefix s) (fixed_digits p 0)
  | S754_infinity s => if s then "-Inf" else "+Inf"
  | S754_nan => "NaN"
  | S754_finite s m e => String.append (sign_prefix s) (fixed_digits p (scaled_digits p m e))
  end.

(** [fmt.Sprintf("%d", n)] *)
Definition fmt_d (n : Z) : string := pretty n.

(* ------------------------------------------------------------------ *)
(** ** Go's int64 and its conversion to float64 *)

Definition wrap64 (z : Z) : Z := ((z + 2 ^ 63) mod 2 ^ 64 - 2 ^ 63)%Z.

(** [float64(n)] for an int64 [n]: round to nearest, ties to even, which
    is symmetric in the sign; -2^63 is exact. *)
Definition float64_of_int64 (n : Z) : float :=
  if (0 <=? n)%Z then PrimFloat.of_uint63 (Uint63.of_Z n)
  else if (n =? - 2 ^ 63)%Z then (-0x1p63)%float
  else PrimFloat.opp (PrimFloat.of_uint63 (Uint63.of_Z (- n))).

(** The results [binary_normalize] gives a positive mantissa: a positive
    finite number or positive infinity. *)
Definition positive_result (f : spec_float) : Prop :=
  match f with
  | S754_finite false _ _ | S754_infinity false => True
  | _ => False
  end.

(* ------------------------------------------------------------------ *)
(** ** Decoded JSON ([interface{}] after [encoding/json]) *)

Inductive jvalue : Type :=
  | JNull
  | JBool (b : bool)
  | JNumber (f : float)            (** JSON numbers decode to float64 *)
  | JString (s : string)
  | JArray (l : list jvalue)
  | JObject (kvs : list (string * jvalue)).

(** The typed target of [json.Unmarshal] in [SendTestResults]. *)
Module K6.
Record K6Metric := {
  Contains : string;
  Values : gmap string jvalue;
  Type_ : string;
}.

Record K6Check := {
  Name : string;
  Passes : Z;      (** int64 *)
  Fails : Z;       (** int64 *)
}.

Record K6Data := {
  Metrics : gmap string K6Metric;
  Checks : list K6Check;   (** [RootGroup.Checks] *)
}.
End K6.

(** The processed results of [SendTestResults]. *)
Module Res.
Record CheckResult := {
  Passes : Z;
  Fails : Z;
  Rate : string;
}.

Record MetricResults := {
  Status : string;
  TestName : string;
  Environment : string;
  Metrics : gmap string string;
  Checks : gmap string CheckResult;
}.
End Res.

(* ------------------------------------------------------------------ *)
(** ** Extraction: [getMetricValue], [formatDuration] and the summarizer *)

(** [formatNumber] *)
Definition formatNumber (num : float) : string := fmt_f 2 num.

(** [formatDuration]: [fmt.Sprintf("%.2fms", value)] *)
Definition formatDuration (value : float) : string :=
  String.append (fmt_f 2 value) "ms".

(** The closure [getMetricValue]: [k6Data.Metrics[metricName]], then the
    type assertion [metric.Values[valueName].(float64)]; 0 otherwise. *)
Definition getMetricValue (k6Data : K6.K6Data) (metricName valueName : string) : float :=
  match K6.Metrics k6Data !! metricName with
  | Some metric =>
      match K6.Values metric !! valueName with
      | Some (JNumber value) => value
      | _ => 0%float
      end
  | None => 0%float
  end.

(** The pass rate of one check record. *)
Definition checkRate (check : K6.K6Check) : string :=
  let total := float64_of_int64 (wrap64 (K6.Passes check + K6.Fails check)) in
  if PrimFloat.ltb 0 total
  then String.append
         (fmt_f 2 (PrimFloat.mul (PrimFloat.div (float64_of_int64 (K6.Passes check)) total) 100))
         "%"
  else "100%".

(** The check loop: [results.Checks[check.Name] = CheckResult{...}]. *)
Definition processChecks (checks : list K6.K6Check) (acc : gmap string Res.CheckResult)
    : gmap string Res.CheckResult :=
  fold_left (fun acc check =>
      <[K6.Name check := {| Res.Passes := K6.Passes check;
                            Res.Fails := K6.Fails check;
                            Res.Rate := checkRate check |}]> acc) checks acc.

(** Lines 174-243 of [SendTestResults]: from the decoded document to
    [results]. *)
Definition summarize (k6Data : K6.K6Data) : Res.MetricResults :=
  let gmv := getMetricValue k6Data in
  let m : gmap string string := ∅ in
  let m := <["Response Time (avg)" := formatDuration (gmv "http_req_duration" "avg")]> m in
  let m := <["Response Time (min)" := formatDuration (gmv "http_req_duration" "min")]> m in
  let m := <["Response Time (med)" := formatDuration (gmv "http_req_duration" "med")]> m in
  let m := <["Response Time (max)" := formatDuration (gmv "http_req_duration" "max")]> m in
  let m := <["Response Time (p90)" := formatDuration (gmv "http_req_duration" "p(90)")]> m in
  let m := <["Response Time (p95)" := formatDuration (gmv "http_req_duration" "p(95)")]> m in
  let m := <["Time to First Byte (avg)" := formatDuration (gmv "http_req_waiting" "avg")]> m in
  let m := <["Connection Time (avg)" := formatDuration (gmv "http_req_connecting" "avg")]> m in
  let m := <["TLS Handshake (avg)" := formatDuration (gmv "http_req_tls_handshaking" "avg")]> m in
  let m := <["Sending Time (avg)" := formatDuration (gmv "http_req_sending" "avg")]> m in
  let m := <["Receiving Time (avg)" := formatDuration (gmv "http_req_receiving" "avg")]> m in
  let m := <["Blocking Time (avg)" := formatDuration (gmv "http_req_blocked" "avg")]> m in
  let m := <["Data Received" := String.append
               (fmt_f 2 (PrimFloat.div (gmv "data_received" "rate") 1024)) " KB/s"]> m in
  let m := <["Data Sent" := String.append
               (fmt_f 2 (PrimFloat.div (gmv "data_sent" "rate") 1024)) " KB/s"]> m in
  let m := <["Total Requests" := fmt_f 0 (gmv "http_reqs" "count")]> m in
  let m := <["Request Rate" := String.append (fmt_f 2 (gmv "http_reqs" "rate")) "/s"]> m in
  let m := <["Iterations" := fmt_f 0 (gmv "iterations" "count")]> m in
  let m := <["Iteration Rate" := String.append (fmt_f 2 (gmv "iterations" "rate")) "/s"]> m in
  let m := <["Virtual Users" := fmt_f 0 (gmv "vus" "value")]> m in
  let failRate := gmv "http_req_failed" "rate" in
  let status := if PrimFloat.ltb 0 failRate then "failed" else "passed" in
  let m := <["Success Rate" := String.append
               (fmt_f 2 (PrimFloat.sub 100 (PrimFloat.mul failRate 100))) "%"]> m in
  {| Res.Status := status;
     Res.TestName := "API Performance Test";
     Res.Environment := "staging";
     Res.Metrics := m;
     Res.Checks := processChecks (K6.Checks k6Data) ∅ |}.

(* ------------------------------------------------------------------ *)
(** ** Slack blocks (the slack-go values the code builds) *)

Record TextBlockObject := {
  TType : string;
  Text : string;
  Emoji : bool;
  Verbatim : bool;
}.

Definition NewTextBlockObject (t text : string) (emoji verbatim : bool) : TextBlockObject :=
  {| TType := t; Text := text; Emoji := emoji; Verbatim := verbatim |}.

(** A button element [NewButtonBlockElement(actionID, value, text).WithURL(url)]. *)
Record ButtonBlockElement := {
  ActionID : string;
  Value : string;
  Label : TextBlockObject;
  URL : string;
}.

Inductive Block : Type :=
  | HeaderBlock (text : TextBlockObject)
  | DividerBlock
  | SectionBlock (text : option TextBlockObject) (fields : list TextBlockObject)
                 (accessory : option ButtonBlockElement)
  | ImageBlock (imageURL altText blockID : string) (title : TextBlockObject).

(** A field group: a section block with fields only. *)
Definition field_group (b : Block) : option (list TextBlockObject) :=
  match b with
  | SectionBlock None fields None => Some fields
  | _ => None
  end.

(** The UTF-8 bytes of the emoji and marks in the Go string literals. *)
Definition utf8 (bs : list nat) : string :=
  fold_right (fun n s => String (Ascii.ascii_of_nat n) s) "" bs.
Definition emoji_check : string := utf8 [226; 156; 133].   (** U+2705 *)
Definition emoji_cross : string := utf8 [226; 157; 140].   (** U+274C *)
Definition mark_pass : string := utf8 [226; 156; 147].     (** U+2713 *)
Definition mark_fail : string := utf8 [226; 156; 151].     (** U+2717 *)

(** The field loop of [SendTestResults]: append a field; when there are
    10 of them, flush them as one section block and start over. Returns
    the blocks and the pending fields. *)
Fixpoint groupFields (entries : list TextBlockObject) (fields : list TextBlockObject)
    (blocks : list Block) : list Block * list TextBlockObject :=
  match entries with
  | [] => (blocks, fields)
  | e :: es =>
      let fields := (fields ++ [e])%list in
      if Nat.eqb (length fields) 10
      then groupFields es [] ((blocks ++ [SectionBlock None fields None])%list)
      else groupFields es fields blocks
  end.

(** [if len(fields) > 0 { blocks = append(blocks, NewSectionBlock(nil, fields, nil)) }] *)
Definition flushFields (bf : list Block * list TextBlockObject) : list Block :=
  let '(blocks, fields) := bf in
  if Nat.ltb 0 (length fields) then (blocks ++ [SectionBlock None fields None])%list else blocks.

Definition metricField (entry : string * string) : TextBlockObject :=
  NewTextBlockObject "mrkdwn"
    (String.append "*" (String.append entry.1 (String.append "*
" entry.2))) false false.

Definition checkField (entry : string * Res.CheckResult) : TextBlockObject :=
  NewTextBlockObject "mrkdwn"
    (String.concat "" ["*"; entry.1; "*
"; mark_pass; " "; fmt_d (Res.Passes entry.2); " | ";
                       mark_fail; " "; fmt_d (Res.Fails entry.2); " | Rate: ";
                       Res.Rate entry.2]) false false.

Definition metricsHeader : Block :=
  SectionBlock (Some (NewTextBlockObject "mrkdwn" "*Test Metrics:*" false false)) [] None.
Definition checksHeader : Block :=
  SectionBlock (Some (NewTextBlockObject "mrkdwn" "*Checks Results:*" false false)) [] None.

(** Lines 245-329 of [SendTestResults]: the blocks of [results].
    [metricOrder] and [checkOrder] are the orders in which the two [range]
    loops visit [results.Metrics] and [results.Checks]. *)
Definition renderResults (results : Res.MetricResults)
    (metricOrder : list (string * string))
    (checkOrder : list (string * Res.CheckResult)) : list Block :=
  let blocks :=
    [HeaderBlock (NewTextBlockObject "plain_text"
       (String.append "Performance Test Results: " (Res.TestName results)) true false);
     DividerBlock] in
  let statusEmoji := if String.eqb (Res.Status results) "passed" then emoji_check else emoji_cross in
  let blocks := app blocks
    [SectionBlock (Some (NewTextBlockObject "mrkdwn"
        (String.concat "" ["*Status:* "; Res.Status results; " "; statusEmoji]) false false)) [] None;
     SectionBlock (Some (NewTextBlockObject "mrkdwn"
        (String.append "*Environment:* " (Res.Environment results)) false false)) [] None;
     DividerBlock] in
  let blocks := app blocks [metricsHeader] in
  let blocks := flushFields (groupFields (map metricField metricOrder) [] blocks) in
  if Nat.ltb 0 (size (Res.Checks results))
  then
    let blocks := app blocks [DividerBlock; checksHeader] in
    flushFields (groupFields (map checkField checkOrder) [] blocks)
  else blocks.

(** A Go [range] over a map visits every entry once, in an unspecified
    order: the orders the two loops of [SendTestResults] take. *)
Record RangeOrder := {
  rangeMetrics : gmap string string -> list (string * string);
  rangeChecks : gmap string Res.CheckResult -> list (string * Res.CheckResult);
}.

Definition valid_order (o : RangeOrder) : Prop :=
  (forall m, rangeMetrics o m ≡ₚ map_to_list m) /\
  (forall m, rangeChecks o m ≡ₚ map_to_list m).

(** The order in which stdpp lists a map: one valid choice. *)
Definition sorted_order : RangeOrder :=
  {| rangeMetrics := map_to_list; rangeChecks := map_to_list |}.

(* ------------------------------------------------------------------ *)
(** ** The external collaborators: encoding/json and the Slack API *)

Inductive result (A : Type) : Type :=
  | Ok (a : A)
  | Err (e : string).
Arguments Ok {A} a.
Arguments Err {A} e.

(** The options passed to [api.PostMessage]. *)
Inductive MsgOption : Type :=
  | MsgOptionText (text : string) (escape : bool)
  | MsgOptionBlocks (blocks : list Block).

(** One call of [api.PostMessage]: the token of the client, the channel
    and the message. *)
Record Post := {
  PostToken : string;
  PostChannel : string;
  PostMsg : MsgOption;
}.

(** The JSON round trip and the network are outside the repository: they
    are parameters. [json_marshal] and [json_unmarshal] are
    [json.Marshal] and [json.Unmarshal] into [K6Data]; [post_result] is the
    error [PostMessage] returns for a post ([None] for nil). *)
Section External.
Variable Doc : Type.
Variable json_marshal : Doc -> result (list Byte.byte).
Variable json_unmarshal : list Byte.byte -> result K6.K6Data.
Variable post_result : Post -> option string.

(** [src/slack.go]: the client. [api] is [Some token] once [slack.New(token)]
    ran, [None] for the nil pointer. *)
Record Client := {
  api : option string;
  channel : string;
}.

Definition newClient : Client := {| api := None; channel := "" |}.

Definition err_not_configured : string :=
  "slack client not configured, call Configure() first".

(** [Configure]: the new client and the returned error. *)
Definition Configure (c : Client) (token channel : string) : Client * option string :=
  if String.eqb token "" then (c, Some "slack token cannot be empty")
  else if String.eqb channel "" then (c, Some "slack channel cannot be empty")
  else ({| api := Some token; channel := channel |}, None).

(** [SendMessage (message string)]: the returned error and the posts made. *)
Definition SendMessage (c : Client) (message : string) : option string * list Post :=
  match api c with
  | None => (Some err_not_configured, [])
  | Some token =>
      let p := {| PostToken := token; PostChannel := channel c;
                  PostMsg := MsgOptionText message false |} in
      (post_result p, [p])
  end.

(** [SendTestResults]: the returned error and the posts made. *)
Definition SendTestResults (o : RangeOrder) (c : Client) (data : Doc) : option string * list Post :=
  match api c with
  | None => (Some err_not_configured, [])
  | Some token =>
      match json_marshal data with
      | Err e => (Some (String.append "error marshaling data: " e), [])
      | Ok jsonData =>
          match json_unmarshal jsonData with
          | Err e => (Some (String.append "error unmarshaling data: " e), [])
          | Ok k6Data =>
              let results := summarize k6Data in
              let blocks := renderResults results (rangeMetrics o (Res.Metrics results))
                              (rangeChecks o (Res.Checks results)) in
              let p := {| PostToken := token; PostChannel := channel c;
                          PostMsg := MsgOptionBlocks blocks |} in
              (post_result p, [p])
          end
      end
  end.

End External.

(* ------------------------------------------------------------------ *)
(** ** [src/unnamed/part_002]: the client with dashboards and graphs *)

Module V2.

Record Config := {
  SlackChannelID : string;
  DashboardURLs : gmap string string;
  GraphURLs : gmap string string;
}.

(** [dashboardStart] is a [time.Time], in nanoseconds since the Unix epoch. *)
Record Client := {
  token : string;
  api : option string;
  config : Config;
  dashboardStart : Z;
  executionUser : string;
}.

(** [&Client{}]: every field at its zero value (the zero [time.Time] is
    January 1 of year 1, -62135596800 s from the epoch). *)
Definition newClient : Client :=
  {| token := ""; api := None;
     config := {| SlackChannelID := ""; DashboardURLs := ∅; GraphURLs := ∅ |};
     dashboardStart := (-62135596800 * 10 ^ 9)%Z; executionUser := "" |}.

(** [t.Unix()]: whole seconds, rounded down. *)
Definition unix (t : Z) : Z := (t / 10 ^ 9)%Z.

(** [time.Hour] in nanoseconds. *)
Definition hour : Z := (3600 * 10 ^ 9)%Z.

Definition StartMessage : string := "Start".
Definition EndMessage : string := "End".

(** [Configure (token, config, user)]; [now] is [time.Now()]. *)
Definition Configure (c : Client) (tok : string) (cfg : Config) (user : string) (now : Z)
    : Client * option string :=
  if String.eqb tok "" then (c, Some "slack token cannot be empty")
  else ({| token := tok; api := Some tok; config := cfg;
           dashboardStart := now; executionUser := user |}, None).

Definition timeRange (fromT toT : Z) : string :=
  String.concat "" ["from_ts="; fmt_d (unix fromT); "&to_ts="; fmt_d (unix toT)].

(** [createDashboardLinks]: [links[name] = baseURL + "?" + timeRange] for
    every configured dashboard; [now] is [endTime := time.Now()]. *)
Definition createDashboardLinks (c : Client) (isStart : bool) (now : Z) : gmap string string :=
  (fun baseURL =>
     String.append baseURL
       (String.append "?"
          (if isStart then timeRange (dashboardStart c) (dashboardStart c + hour)%Z
           else timeRange (dashboardStart c) now))) <$> DashboardURLs (config c).

Definition dashboardButton (entry : string * string) : Block :=
  SectionBlock
    (Some (NewTextBlockObject "mrkdwn"
       (String.concat "" ["View the live test execution on the "; entry.1; " dashboard"])
       false false))
    []
    (Some {| ActionID := ""; Value := entry.1;
             Label := NewTextBlockObject "plain_text" "View Dashboard :bar_chart:" true false;
             URL := entry.2 |}).

(** [createButtonBlocks], over the entries in their [range] order. *)
Definition createButtonBlocks (dashboardURLs : list (string * string)) : list Block :=
  (map dashboardButton dashboardURLs ++ [DividerBlock])%list.

Definition graphImage (entry : string * string) : list Block :=
  [ImageBlock entry.2 entry.1 "" (NewTextBlockObject "plain_text" entry.1 false false);
   DividerBlock].

(** [createGraphBlocks], over the entries in their [range] order. *)
Definition createGraphBlocks (graphURLs : list (string * string)) : list Block :=
  ([HeaderBlock (NewTextBlockObject "plain_text" ":stopwatch: Test Results Summary" true false);
    DividerBlock] ++ concat (map graphImage graphURLs))%list.

(** The four blocks every [SendMessage] starts with. *)
Definition messageHeader (c : Client) (messageType : string) : list Block :=
  [HeaderBlock (NewTextBlockObject "plain_text"
     (String.append "Performance Test " messageType) false false);
   DividerBlock;
   SectionBlock None
     [NewTextBlockObject "mrkdwn" (String.append "User: " (executionUser c)) false false] None;
   DividerBlock].

(** The Go slice loop of [AddTestMetrics]:
    [for i := 0; i < len(fields); i += 10 { ... fields[i:end] ... }]. *)
Equations addGroups (fields : list TextBlockObject) (i : nat) (blocks : list Block)
    : list Block by wf (length fields - i) lt :=
addGroups fields i blocks with lt_dec i (length fields) := {
  | left _ =>
      let end_ := Nat.min (i + 10) (length fields) in
      addGroups fields (i + 10)
        (blocks ++ [SectionBlock None (take (end_ - i) (drop i fields)) None])%list;
  | right _ => blocks }.
Next Obligation. lia. Qed.

Section Send.
Variable post_result : Post -> option string.
(** Go's [%v] on a decoded value. *)
Variable fmt_v : jvalue -> string.

(** [SendMessage (messageType)]; [rng] is the order of the [range] loops
    over a map, [now] is [time.Now()] at the call. *)
Definition SendMessage (rng : gmap string string -> list (string * string))
    (c : Client) (messageType : string) (now : Z) : option string * list Post :=
  match api c with
  | None => (Some err_not_configured, [])
  | Some tok =>
      let blocks := messageHeader c messageType in
      let blocks :=
        if String.eqb messageType StartMessage then
          (blocks ++ createButtonBlocks (rng (createDashboardLinks c true now)))%list
        else if String.eqb messageType EndMessage then
          let blocks :=
            if Nat.ltb 0 (size (GraphURLs (config c)))
            then (blocks ++ createGraphBlocks (rng (GraphURLs (config c))))%list
            else blocks in
          (blocks ++ createButtonBlocks (rng (createDashboardLinks c false now)))%list
        else blocks in
      let p := {| PostToken := tok; PostChannel := SlackChannelID (config c);
                  PostMsg := MsgOptionBlocks blocks |} in
      (post_result p, [p])
  end.

Definition metricValueField (entry : string * jvalue) : TextBlockObject :=
  NewTextBlockObject "mrkdwn"
    (String.concat "" ["*"; entry.1; "*
"; fmt_v entry.2]) false false.

(** [AddTestMetrics]; [rng] is the order of the [range] over [metrics]. *)
Definition AddTestMetrics (rng : gmap string jvalue -> list (string * jvalue))
    (c : Client) (metrics : gmap string jvalue) : option string * list Post :=
  match api c with
  | None => (Some err_not_configured, [])
  | Some tok =>
      let blocks :=
        [HeaderBlock (NewTextBlockObject "plain_text" "Test Metrics" false false);
         DividerBlock] in
      let fields := map metricValueField (rng metrics) in
      let blocks := addGroups fields 0 blocks in
      let p := {| PostToken := tok; PostChannel := SlackChannelID (config c);
                  PostMsg := MsgOptionBlocks blocks |} in
      (post_result p, [p])
  end.

End Send.

End V2.

(** The rows of the metrics table: label, metric, field and the formatter
    [SendTestResults] applies to the looked-up value. *)
Definition metric_table : list (string * string * string * (float -> string)) :=
  [("Response Time (avg)", "http_req_duration", "avg", formatDuration);
   ("Response Time (min)", "http_req_duration", "min", formatDuration);
   ("Response Time (med)", "http_req_duration", "med", formatDuration);
   ("Response Time (max)", "http_req_duration", "max", formatDuration);
   ("Response Time (p90)", "http_req_duration", "p(90)", formatDuration);
   ("Response Time (p95)", "http_req_duration", "p(95)", formatDuration);
   ("Time to First Byte (avg)", "http_req_waiting", "avg", formatDuration);
   ("Connection Time (avg)", "http_req_connecting", "avg", formatDuration);
   ("TLS Handshake (avg)", "http_req_tls_handshaking", "avg", formatDuration);
   ("Sending Time (avg)", "http_req_sending", "avg", formatDuration);
   ("Receiving Time (avg)", "http_req_receiving", "avg", formatDuration);
   ("Blocking Time (avg)", "http_req_blocked", "avg", formatDuration);
   ("Data Received", "data_received", "rate",
      fun v => String.append (fmt_f 2 (PrimFloat.div v 1024)) " KB/s");
   ("Data Sent", "data_sent", "rate",
      fun v => String.append (fmt_f 2 (PrimFloat.div v 1024)) " KB/s");
   ("Total Requests", "http_reqs", "count", fmt_f 0);
   ("Request Rate", "http_reqs", "rate", fun v => String.append (fmt_f 2 v) "/s");
   ("Iterations", "iterations", "count", fmt_f 0);
   ("Iteration Rate", "iterations", "rate", fun v => String.append (fmt_f 2 v) "/s");
   ("Virtual Users", "vus", "value", fmt_f 0);
   ("Success Rate", "http_req_failed", "rate",
      fun v => String.append (fmt_f 2 (PrimFloat.sub 100 (PrimFloat.mul v 100))) "%")].

(** A field-group block, and the bound the Slack API puts on it. *)
Definition grp (g : list TextBlockObject) : Block := SectionBlock None g None.

Definition bounded_group (g : list TextBlockObject) : Prop := 0 < length g <= 10.

(** Documents used as concrete inputs below. *)
Definition empty_doc : K6.K6Data := {| K6.Metrics := ∅; K6.Checks := [] |}.

(** A document with one metric holding one numeric field. *)
Definition single_doc (m f : string) (v : float) : K6.K6Data :=
  {| K6.Metrics := {[ m := {| K6.Contains := ""; K6.Type_ := "";
                              K6.Values := {[ f := JNumber v ]} |} ]};
     K6.Checks := [] |}.

(** The entry each row gets when its metric or field is missing. *)
Definition expected_when_missing : list (string * string * string * string) :=
  [("Response Time (avg)", "http_req_duration", "avg", "0.00ms");
   ("Response Time (min)", "http_req_duration", "min", "0.00ms");
   ("Response Time (med)", "http_req_duration", "med", "0.00ms");
   ("Response Time (max)", "http_req_duration", "max", "0.00ms");
   ("Response Time (p90)", "http_req_duration", "p(90)", "0.00ms");
   ("Response Time (p95)", "http_req_duration", "p(95)", "0.00ms");
   ("Time to First Byte (avg)", "http_req_waiting", "avg", "0.00ms");
   ("Connection Time (avg)", "http_req_connecting", "avg", "0.00ms");
   ("TLS Handshake (avg)", "http_req_tls_handshaking", "avg", "0.00ms");
   ("Sending Time (avg)", "http_req_sending", "avg", "0.00ms");
   ("Receiving Time (avg)", "http_req_receiving", "avg", "0.00ms");
   ("Blocking Time (avg)", "http_req_blocked", "avg", "0.00ms");
   ("Data Received", "data_received", "rate", "0.00 KB/s");
   ("Data Sent", "data_sent", "rate", "0.00 KB/s");
   ("Total Requests", "http_reqs", "count", "0");
   ("Request Rate", "http_reqs", "rate", "0.00/s");
   ("Iterations", "iterations", "count", "0");
   ("Iteration Rate", "iterations", "rate", "0.00/s");
   ("Virtual Users", "vus", "value", "0");
   ("Success Rate", "http_req_failed", "rate", "100.00%")].

Definition ex_doc : K6.K6Data :=
  {| K6.Metrics := <["http_req_duration" :=
        {| K6.Contains := "time"; K6.Type_ := "trend";
           K6.Values := <["avg" := JNumber 76.2412846153846%float]> ∅ |}]> ∅;
     K6.Checks := [ {| K6.Name := "ok"; K6.Passes := 8; K6.Fails := 2 |} ] |}.

(** Second-version clients: configured at the epoch by user "ci", one
    with a dashboard, one with neither dashboards nor graphs. *)
Definition v2_client_ex : V2.Client :=
  {| V2.token := "xoxb-token"; V2.api := Some "xoxb-token";
     V2.config := {| V2.SlackChannelID := "C0";
                     V2.DashboardURLs := <["grafana" := "https://grafana.example/d/k6"]> ∅;
                     V2.GraphURLs := ∅ |};
     V2.dashboardStart := 0%Z; V2.executionUser := "ci" |}.

Definition v2_client_bare : V2.Client :=
  {| V2.token := "xoxb-token"; V2.api := Some "xoxb-token";
     V2.config := {| V2.SlackChannelID := "C0"; V2.DashboardURLs := ∅; V2.GraphURLs := ∅ |};
     V2.dashboardStart := 0%Z; V2.executionUser := "ci" |}.

Example ex1 : fmt_f 2 76.2412846153846%float = "76.24". Proof. vm_compute. reflexivity. Qed.
Example ex2 : fmt_f 0 130%float = "130". Proof. vm_compute. reflexivity. Qed.
Example ex3 : fmt_f 2 (-0)%float = "-0.00". Proof. vm_compute. reflexivity. Qed.
Example ex4 : fmt_f 2 0.125%float = "0.12". Proof. vm_compute. reflexivity. Qed.
Example ex5 : fmt_f 2 0.375%float = "0.38". Proof. vm_compute. reflexivity. Qed.
Example ex6 : Res.Metrics (summarize ex_doc) !! "Response Time (avg)" = Some "76.24ms".
Proof. vm_compute. reflexivity. Qed.
Example ex7 : (Res.Rate <$> (Res.Checks (summarize ex_doc) !! "ok")) = Some "80.00%".
Proof. vm_compute. reflexivity. Qed.
Example ex8 : fmt_f 2 (PrimFloat.div 2890872 1024)%float = "2823.12". Proof. vm_compute. reflexivity. Qed.
Example ex9 : float64_of_int64 (-3) = (-3)%float. Proof. vm_compute. reflexivity. Qed.
Example ex10 : float64_of_int64 (2^53 + 1) = 0x1p53%float. Proof. vm_compute. reflexivity. Qed.

(* ------------------------------------------------------------------ *)
(** ** Lemmas on the extraction *)



Ltac lookup_row :=
  unfold summarize; cbn [Res.Metrics];
  repeat (rewrite lookup_insert_ne by discriminate);
  rewrite lookup_insert_eq; reflexivity.

Lemma summarize_rows (k : K6.K6Data) :
  Forall (fun '(label, m, f, fmt) =>
            Res.Metrics (summarize k) !! label = Some (fmt (getMetricValue k m f)))
         metric_table.
Proof.
  unfold metric_table.
  repeat (apply Forall_cons; split; [lookup_row|]). apply Forall_nil; done.
Qed.

Lemma summarize_size (k : K6.K6Data) : size (Res.Metrics (summarize k)) = 20.
Proof. vm_compute. reflexivity. Qed.

Lemma getMetricValue_number (k : K6.K6Data) (m f : string) met v :
  K6.Metrics k !! m = Some met -> K6.Values met !! f = Some (JNumber v) ->
  getMetricValue k m f = v.
Proof. intros Hm Hv. unfold getMetricValue. by rewrite Hm, Hv. Qed.

Lemma getMetricValue_other (k : K6.K6Data) (m f : string) :
  (forall met v, K6.Metrics k !! m = Some met -> K6.Values met !! f <> Some (JNumber v)) ->
  getMetricValue k m f = 0%float.
Proof.
  intros H. unfold getMetricValue.
  destruct (K6.Metrics k !! m) as [met|] eqn:Hm; [|done].
  destruct (K6.Values met !! f) as [[]|] eqn:Hv; try done.
  exfalso. by apply (H met f0).
Qed.

(* ------------------------------------------------------------------ *)
(** ** The sign of [float64(n)]

    Rounding a positive integer to binary64 never gives zero: each shift
    [binary_round] makes keeps at least the leading bit. *)

Section FloatSign.
Local Open Scope Z_scope.

Lemma shr_1_m (mrs : shr_record) :
  0 <= shr_m mrs -> shr_m (shr_1 mrs) = shr_m mrs / 2.
Proof.
  destruct mrs as [m r s]; cbn; intros H.
  destruct m as [|[p|p|]|p]; cbn; try reflexivity; try lia.
  - apply (Z.div_unique _ _ _ 1); lia.
  - apply (Z.div_unique _ _ _ 0); lia.
Qed.

Lemma iter_shr_1 (p : positive) : forall mrs,
  0 <= shr_m mrs -> shr_m (SpecFloat.iter_pos shr_1 p mrs) = shr_m mrs / 2 ^ Zpos p.
Proof.
  induction p as [p IH|p IH|]; intros mrs H; cbn [SpecFloat.iter_pos].
  - assert (H1 : 0 <= shr_m (shr_1 mrs)) by (rewrite shr_1_m; [apply Z.div_pos|]; lia).
    assert (H2 : 0 <= shr_m (SpecFloat.iter_pos shr_1 p (shr_1 mrs)))
      by (rewrite IH by exact H1; apply Z.div_pos; [exact H1|apply Z.pow_pos_nonneg; lia]).
    rewrite IH, IH, shr_1_m by assumption.
    replace (Zpos p~1) with (1 + Zpos p + Zpos p) by lia.
    rewrite !Z.pow_add_r, !Z.div_div by (try apply Z.pow_nonneg; try apply Z.pow_pos_nonneg; lia).
    f_equal; ring.
  - assert (H2 : 0 <= shr_m (SpecFloat.iter_pos shr_1 p mrs))
      by (rewrite IH by exact H; apply Z.div_pos; [exact H|apply Z.pow_pos_nonneg; lia]).
    rewrite IH, IH by assumption.
    replace (Zpos p~0) with (Zpos p + Zpos p) by lia.
    rewrite !Z.pow_add_r, !Z.div_div by (try apply Z.pow_nonneg; try apply Z.pow_pos_nonneg; lia).
    f_equal; ring.
  - apply shr_1_m, H.
Qed.

Lemma digits2_pos_log2 (m : positive) : Zpos (digits2_pos m) = Z.log2 (Zpos m) + 1.
Proof.
  assert (Hs : forall q, digits2_pos q = Pos.size q) by (induction q; cbn; congruence).
  rewrite Hs. destruct m; cbn; lia.
Qed.

Lemma shr_m_of_loc (m : Z) (l : location) : shr_m (shr_record_of_loc m l) = m.
Proof. destruct l as [|[]]; reflexivity. Qed.

Lemma shr_fexp_pos (prec emax m e : Z) (l : location) :
  1 <= prec -> SpecFloat.emin prec emax <= e -> 0 < m ->
  0 < shr_m (fst (shr_fexp prec emax m e l)) /\ e <= snd (shr_fexp prec emax m e l).
Proof.
  intros Hp He Hm. destruct m as [|p|p]; try lia.
  unfold shr_fexp, shr. cbn [Zdigits2].
  pose proof (digits2_pos_log2 p) as Hd.
  pose proof (Z.log2_spec (Zpos p) eq_refl) as [Hlo _].
  destruct (fexp prec emax (Zpos (digits2_pos p) + e) - e) as [|q|q] eqn:Hk; cbn [fst snd];
    rewrite ?shr_m_of_loc; try lia.
  rewrite iter_shr_1 by (rewrite shr_m_of_loc; lia). rewrite shr_m_of_loc.
  split; [|lia].
  apply Z.div_str_pos. split; [apply Z.pow_pos_nonneg; lia|].
  eapply Z.le_trans; [|exact Hlo].
  apply Z.pow_le_mono_r; [lia|].
  unfold fexp, SpecFloat.emin in *. lia.
Qed.

Lemma round_nearest_even_ge (m : Z) (l : location) : m <= round_nearest_even m l.
Proof. destruct l as [|[]]; cbn; try destruct (Z.even m); lia. Qed.

Lemma binary_round_aux_pos (prec emax m e : Z) :
  1 <= prec -> SpecFloat.emin prec emax <= e -> 0 < m ->
  positive_result (binary_round_aux prec emax false m e loc_Exact).
Proof.
  intros Hp He Hm. unfold binary_round_aux.
  pose proof (shr_fexp_pos prec emax m e loc_Exact Hp He Hm) as [H1 H2].
  destruct (shr_fexp prec emax m e loc_Exact) as [mrs' e'].
  cbn [fst snd] in H1, H2.
  pose proof (round_nearest_even_ge (shr_m mrs') (loc_of_shr_record mrs')).
  pose proof (shr_fexp_pos prec emax (round_nearest_even (shr_m mrs') (loc_of_shr_record mrs'))
                e' loc_Exact Hp ltac:(lia) ltac:(lia)) as [H3 _].
  destruct (shr_fexp prec emax _ e' loc_Exact) as [mrs'' e''].
  cbn [fst] in H3.
  destruct (shr_m mrs''); try lia. destruct (e'' <=? emax - prec); exact I.
Qed.

Lemma binary_round_pos (prec emax : Z) (p : positive) :
  1 <= prec -> SpecFloat.emin prec emax <= 0 ->
  positive_result (binary_round prec emax false p 0).
Proof.
  intros Hp H0. unfold binary_round, shl_align.
  destruct (fexp prec emax (Zpos (digits2_pos p) + 0) - 0) eqn:Hs;
    apply binary_round_aux_pos; try lia.
  unfold fexp in *. lia.
Qed.

Lemma float64_of_int64_pos (z : Z) :
  - 2 ^ 63 <= z < 2 ^ 63 -> PrimFloat.ltb 0 (float64_of_int64 z) = (0 <? z).
Proof.
  intros Hz. unfold float64_of_int64.
  rewrite FloatAxioms.ltb_spec.
  assert (H0 : Prim2SF 0 = S754_zero false) by reflexivity. rewrite H0; clear H0.
  assert (Hr : forall p, (Zpos p < 2 ^ 63) ->
     positive_result (Prim2SF (of_uint63 (of_Z (Zpos p))))).
  { intros p Hp. rewrite FloatAxioms.of_uint63_spec, Uint63.of_Z_spec, Z.mod_small
      by (change wB with (2 ^ 63); lia).
    apply binary_round_pos; cbv; congruence. }
  destruct (Z.leb_spec 0 z) as [Hnn|Hnn].
  - destruct z as [|p|p]; try lia.
    + reflexivity.
    + specialize (Hr p ltac:(lia)).
      destruct (Prim2SF (of_uint63 _)) as [| [|] | | [|] ? ?]; try contradiction; reflexivity.
  - destruct (Z.eqb_spec z (- 2 ^ 63)) as [Hmin|Hmin].
    + subst. reflexivity.
    + destruct z as [|p|p]; try lia. cbn [Z.opp].
      specialize (Hr p ltac:(lia)). rewrite FloatAxioms.opp_spec.
      destruct (Prim2SF (of_uint63 _)) as [| [|] | | [|] ? ?]; try contradiction; reflexivity.
Qed.

End FloatSign.

(** The check loop stores, under each name, the record of a check with
    that name. *)
Lemma processChecks_lookup (checks : list K6.K6Check) :
  forall (acc : gmap string Res.CheckResult) n r,
  processChecks checks acc !! n = Some r ->
  acc !! n = Some r
  \/ exists ch, In ch checks /\ K6.Name ch = n
       /\ r = {| Res.Passes := K6.Passes ch; Res.Fails := K6.Fails ch;
                 Res.Rate := checkRate ch |}.
Proof.
  induction checks as [|ch cs IH]; intros acc n r H; [by left|].
  cbn [processChecks fold_left] in H. unfold processChecks in IH.
  destruct (IH _ _ _ H) as [H1|(ch' & Hin & Hn & Hr)].
  - destruct (String.eq_dec (K6.Name ch) n) as [<-|Hne].
    + rewrite lookup_insert_eq in H1. injection H1 as <-.
      right. exists ch. split; [left; reflexivity|]. split; reflexivity.
    + rewrite lookup_insert_ne in H1 by exact Hne. by left.
  - right. exists ch'. split; [right; exact Hin|]. split; assumption.
Qed.

(** [Add(1*time.Hour).Unix()] is one hour of seconds after [Unix()]. *)
Lemma unix_add_hour (t : Z) : V2.unix (t + V2.hour) = (V2.unix t + 3600)%Z.
Proof. unfold V2.unix, V2.hour. rewrite Z.div_add by lia. reflexivity. Qed.

(* ------------------------------------------------------------------ *)
(** ** Claims *)

(** C1: [SendTestResults] ends in exactly one of four ways: not
    configured; [json.Marshal] fails; [json.Unmarshal] fails; or the
    document decodes, its blocks are computed (a total function of the
    decoded document and the map iteration orders) and the only error is
    the one [PostMessage] returns. *)
Theorem sendTestResults_failures (Doc : Type) (json_marshal : Doc -> result (list Byte.byte))
    (json_unmarshal : list Byte.byte -> result K6.K6Data) (post_result : Post -> option string)
    (o : RangeOrder) (c : Client) (data : Doc) :
  let '(err, posts) := SendTestResults Doc json_marshal json_unmarshal post_result o c data in
  (api c = None /\ err = Some err_not_configured /\ posts = [])
  \/ (exists tok e, api c = Some tok /\ json_marshal data = Err e /\
        err = Some (String.append "error marshaling data: " e) /\ posts = [])
  \/ (exists tok b e, api c = Some tok /\ json_marshal data = Ok b /\ json_unmarshal b = Err e /\
        err = Some (String.append "error unmarshaling data: " e) /\ posts = [])
  \/ (exists tok b k6Data, api c = Some tok /\ json_marshal data = Ok b /\
        json_unmarshal b = Ok k6Data /\
        let blocks := renderResults (summarize k6Data)
                        (rangeMetrics o (Res.Metrics (summarize k6Data)))
                        (rangeChecks o (Res.Checks (summarize k6Data))) in
        let p := {| PostToken := tok; PostChannel := channel c;
                    PostMsg := MsgOptionBlocks blocks |} in
        posts = [p] /\ err = post_result p).
Proof.
  unfold SendTestResults.
  destruct (api c) as [tok|] eqn:Ha; [|left; auto].
  destruct (json_marshal data) as [b|e] eqn:Hm.
  - destruct (json_unmarshal b) as [k|e] eqn:Hu.
    + right; right; right. exists tok, b, k. auto.
    + right; right; left. exists tok, b, e. auto.
  - right; left. exists tok, e. auto.
Qed.

(** C3: the status is "failed" exactly when [http_req_failed] has a
    numeric [values.rate] greater than zero, and "passed" otherwise
    (metric or field absent, not a number, zero or negative). *)
Theorem status_failed_iff (k : K6.K6Data) :
  (Res.Status (summarize k) = "failed" <->
     exists met r, K6.Metrics k !! "http_req_failed" = Some met /\
                   K6.Values met !! "rate" = Some (JNumber r) /\ PrimFloat.ltb 0 r = true)
  /\ (Res.Status (summarize k) = "passed" <->
     ~ exists met r, K6.Metrics k !! "http_req_failed" = Some met /\
                     K6.Values met !! "rate" = Some (JNumber r) /\ PrimFloat.ltb 0 r = true).
Proof.
  unfold summarize; cbn [Res.Status]. unfold getMetricValue.
  destruct (K6.Metrics k !! "http_req_failed") as [met|] eqn:Hm.
  - destruct (K6.Values met !! "rate") as [[| |r| | |]|] eqn:Hv;
      try (split; split; [discriminate | intros (met' & r & H1 & H2 & H3); congruence
                         | intros _ (met' & r & H1 & H2 & H3); congruence | reflexivity ]).
    destruct (PrimFloat.ltb 0 r) eqn:Hr; split; split.
    + intros _. eauto.
    + reflexivity.
    + discriminate.
    + intros H. exfalso. apply H. eauto.
    + discriminate.
    + intros (met' & r' & H1 & H2 & H3). congruence.
    + intros _ (met' & r' & H1 & H2 & H3). congruence.
    + reflexivity.
  - split; split; [discriminate | intros (met' & r & H1 & H2 & H3); congruence
                  | intros _ (met' & r & H1 & H2 & H3); congruence | reflexivity ].
Qed.

Lemma getMetricValue_missing (k : K6.K6Data) (m f : string) :
  (forall met, K6.Metrics k !! m = Some met -> K6.Values met !! f = None) ->
  getMetricValue k m f = 0%float.
Proof.
  intros H. apply getMetricValue_other. intros met v Hm. rewrite (H met Hm). discriminate.
Qed.

(** C10: [getMetricValue] returns the stored float when the metric exists
    and the field holds a number, and 0 in every other case; every row of
    the summary whose value is not a number is the formatting of 0. *)
Theorem getMetricValue_defaults_to_zero (k : K6.K6Data) (m f : string) :
  (forall met v, K6.Metrics k !! m = Some met -> K6.Values met !! f = Some (JNumber v) ->
     getMetricValue k m f = v)
  /\ ((forall met v, K6.Metrics k !! m = Some met -> K6.Values met !! f <> Some (JNumber v)) ->
      getMetricValue k m f = 0%float)
  /\ Forall (fun '(label, m', f', fmt) =>
       (forall met v, K6.Metrics k !! m' = Some met -> K6.Values met !! f' <> Some (JNumber v)) ->
       Res.Metrics (summarize k) !! label = Some (fmt 0%float)) metric_table
  /\ formatDuration 0 = "0.00ms".
Proof.
  split; [intros met v; apply getMetricValue_number|].
  split; [apply getMetricValue_other|].
  split; [|vm_compute; reflexivity].
  eapply Forall_impl; [apply (summarize_rows k)|].
  intros [[[label m'] f'] fmt] Hrow Hno. rewrite Hrow.
  by rewrite (getMetricValue_other k m' f' Hno).
Qed.

(** C2 (counterexample): with the metric missing, the entry is "0.00ms",
    not "N/A". *)
Lemma missing_metric_not_NA :
  Res.Metrics (summarize empty_doc) !! "Response Time (avg)" = Some "0.00ms"
  /\ "0.00ms" <> "N/A".
Proof. split; [vm_compute; reflexivity | discriminate]. Qed.

Ltac missing_row H :=
  unfold summarize; cbn [Res.Metrics];
  repeat (rewrite lookup_insert_ne by discriminate);
  rewrite lookup_insert_eq; rewrite (getMetricValue_missing _ _ _ H);
  vm_compute; reflexivity.

(** C2 (amended): when a metric or its field is missing, the row is kept
    and holds the formatting of 0 ("0.00ms", "0.00 KB/s", "0", "0.00/s",
    and "100.00%" for the success rate); a decoded document still reaches
    [PostMessage], whose error is the call's only one. *)
Theorem missing_metric_zero_text (k : K6.K6Data) :
  Forall (fun '(label, m, f, txt) =>
       (forall met, K6.Metrics k !! m = Some met -> K6.Values met !! f = None) ->
       Res.Metrics (summarize k) !! label = Some txt) expected_when_missing
  /\ (forall (Doc : Type) json_marshal json_unmarshal post_result o (c : Client) (data : Doc) tok b,
        api c = Some tok -> json_marshal data = Ok b -> json_unmarshal b = Ok k ->
        SendTestResults Doc json_marshal json_unmarshal post_result o c data =
          let blocks := renderResults (summarize k) (rangeMetrics o (Res.Metrics (summarize k)))
                          (rangeChecks o (Res.Checks (summarize k))) in
          let p := {| PostToken := tok; PostChannel := channel c;
                      PostMsg := MsgOptionBlocks blocks |} in
          (post_result p, [p])).
Proof.
  split.
  - unfold expected_when_missing.
    repeat (apply Forall_cons; split; [intros H; missing_row H|]). apply Forall_nil; done.
  - intros Doc jm ju pr o c data tok b Ha Hm Hu.
    unfold SendTestResults. by rewrite Ha, Hm, Hu.
Qed.

(** C5 (counterexample): byte rates are not scaled to MB and an absent
    value is not "N/A". *)
Lemma byte_rate_and_absent_format :
  Res.Metrics (summarize (single_doc "data_received" "rate" 2890872)) !! "Data Received"
    = Some "2823.12 KB/s"
  /\ "2823.12 KB/s" <> "2.76 MB"
  /\ Res.Metrics (summarize empty_doc) !! "Response Time (avg)" = Some "0.00ms"
  /\ "0.00ms" <> "N/A".
Proof.
  split; [vm_compute; reflexivity|]. split; [discriminate|].
  split; [vm_compute; reflexivity | discriminate].
Qed.

(** C5 (amended): the formats of [SendTestResults]. Durations print
    "%.2fms", rates "%.2f/s", byte rates divided by 1024 as "%.2f KB/s"
    (no MB), counts "%.0f", the success rate 100 - rate*100 as "%.2f%";
    a value that is absent or not a number is read as 0 and printed in its
    unit's format. *)
Theorem value_formats (k : K6.K6Data) :
  Res.Metrics (summarize (single_doc "http_req_duration" "avg" 76.2412846153846))
    !! "Response Time (avg)" = Some "76.24ms"
  /\ Res.Metrics (summarize (single_doc "http_reqs" "rate" 12.642716822593506))
    !! "Request Rate" = Some "12.64/s"
  /\ Res.Metrics (summarize (single_doc "http_req_failed" "rate" 0.05))
    !! "Success Rate" = Some "95.00%"
  /\ Res.Metrics (summarize (single_doc "data_received" "rate" 1024))
    !! "Data Received" = Some "1.00 KB/s"
  /\ Res.Metrics (summarize (single_doc "data_received" "rate" 2890872))
    !! "Data Received" = Some "2823.12 KB/s"
  /\ Res.Metrics (summarize (single_doc "http_reqs" "count" 130))
    !! "Total Requests" = Some "130"
  /\ Forall (fun '(label, m, f, fmt) =>
       (forall met v, K6.Metrics k !! m = Some met -> K6.Values met !! f <> Some (JNumber v)) ->
       Res.Metrics (summarize k) !! label = Some (fmt 0%float)) metric_table
  /\ map (fun '(_, _, _, fmt) => fmt 0%float) metric_table
     = map (fun '(_, _, _, txt) => txt) expected_when_missing
  /\ Forall (fun '(label, m, f) =>
       forall met v, K6.Metrics k !! m = Some met -> K6.Values met !! f = Some (JNumber v) ->
       Res.Metrics (summarize k) !! label = Some (String.append (fmt_f 2 v) "ms"))
     [("Response Time (avg)", "http_req_duration", "avg");
      ("Response Time (min)", "http_req_duration", "min");
      ("Response Time (med)", "http_req_duration", "med");
      ("Response Time (max)", "http_req_duration", "max");
      ("Response Time (p90)", "http_req_duration", "p(90)");
      ("Response Time (p95)", "http_req_duration", "p(95)");
      ("Time to First Byte (avg)", "http_req_waiting", "avg");
      ("Connection Time (avg)", "http_req_connecting", "avg");
      ("TLS Handshake (avg)", "http_req_tls_handshaking", "avg");
      ("Sending Time (avg)", "http_req_sending", "avg");
      ("Receiving Time (avg)", "http_req_receiving", "avg");
      ("Blocking Time (avg)", "http_req_blocked", "avg")]
  /\ Forall (fun '(label, m, f) =>
       forall met v, K6.Metrics k !! m = Some met -> K6.Values met !! f = Some (JNumber v) ->
       Res.Metrics (summarize k) !! label
         = Some (String.append (fmt_f 2 (PrimFloat.div v 1024)) " KB/s"))
     [("Data Received", "data_received", "rate"); ("Data Sent", "data_sent", "rate")]
  /\ Forall (fun '(label, m, f) =>
       forall met v, K6.Metrics k !! m = Some met -> K6.Values met !! f = Some (JNumber v) ->
       Res.Metrics (summarize k) !! label = Some (String.append (fmt_f 2 v) "/s"))
     [("Request Rate", "http_reqs", "rate"); ("Iteration Rate", "iterations", "rate")]
  /\ Forall (fun '(label, m, f) =>
       forall met v, K6.Metrics k !! m = Some met -> K6.Values met !! f = Some (JNumber v) ->
       Res.Metrics (summarize k) !! label = Some (fmt_f 0 v))
     [("Total Requests", "http_reqs", "count"); ("Iterations", "iterations", "count");
      ("Virtual Users", "vus", "value")]
  /\ (forall met v, K6.Metrics k !! "http_req_failed" = Some met ->
        K6.Values met !! "rate" = Some (JNumber v) ->
        Res.Metrics (summarize k) !! "Success Rate"
          = Some (String.append (fmt_f 2 (PrimFloat.sub 100 (PrimFloat.mul v 100))) "%")).
Proof.
  do 6 (split; [vm_compute; reflexivity|]).
  split.
  { eapply Forall_impl; [apply (summarize_rows k)|].
    intros [[[label m] f] fmt] Hrow Hno. rewrite Hrow.
    by rewrite (getMetricValue_other k m f Hno). }
  split; [vm_compute; reflexivity|].
  do 4 (split;
    [repeat (apply Forall_cons; split;
       [hnf; intros met v Hm Hv; rewrite <- (getMetricValue_number k _ _ met v Hm Hv); lookup_row|]);
     apply Forall_nil; done|]).
  intros met v Hm Hv. rewrite <- (getMetricValue_number k _ _ met v Hm Hv). lookup_row.
Qed.

(** C8: on a client whose [api] is nil, [SendMessage] and
    [SendTestResults] (and the second version's [SendMessage]) return the
    "not configured" error and post nothing. *)
Theorem send_unconfigured (Doc : Type) (json_marshal : Doc -> result (list Byte.byte))
    (json_unmarshal : list Byte.byte -> result K6.K6Data) (post_result : Post -> option string)
    (o : RangeOrder) (c : Client) (c2 : V2.Client) (message : string) (data : Doc)
    (rng : gmap string string -> list (string * string)) (messageType : string) (now : Z) :
  api c = None -> V2.api c2 = None ->
  SendMessage post_result c message = (Some err_not_configured, [])
  /\ SendTestResults Doc json_marshal json_unmarshal post_result o c data
     = (Some err_not_configured, [])
  /\ V2.SendMessage post_result rng c2 messageType now = (Some err_not_configured, []).
Proof.
  intros Ha Ha2. unfold SendMessage, SendTestResults, V2.SendMessage.
  by rewrite Ha, Ha2.
Qed.

(* ------------------------------------------------------------------ *)
(** ** Lemmas on field grouping *)

Lemma ceil_step (n : nat) : 0 < n -> (n + 9) / 10 = S ((n - 10 + 9) / 10).
Proof.
  intros Hn. destruct (le_lt_dec 10 n) as [Hle|Hlt].
  - replace (n + 9) with (1 * 10 + (n - 10 + 9)) by lia.
    rewrite Nat.div_add_l by lia. reflexivity.
  - replace (n - 10) with 0 by lia. cbn [Nat.add].
    replace (9 / 10) with 0 by reflexivity.
    symmetry. apply Nat.div_unique with (r := n - 1); lia.
Qed.

Lemma ceil_groups (g r : nat) :
  r < 10 -> (10 * g + r + 9) / 10 = g + (if Nat.ltb 0 r then 1 else 0).
Proof.
  intros Hr. replace (10 * g + r + 9) with (g * 10 + (r + 9)) by lia.
  rewrite Nat.div_add_l by lia. f_equal.
  destruct (Nat.ltb_spec 0 r).
  - symmetry. apply Nat.div_unique with (r := r - 1); lia.
  - replace r with 0 by lia. reflexivity.
Qed.

Lemma groupFields_spec (es : list TextBlockObject) :
  forall fs bs, length fs < 10 ->
  exists gs fs', groupFields es fs bs = ((bs ++ map grp gs)%list, fs')
    /\ Forall (fun g => length g = 10) gs /\ length fs' < 10
    /\ 10 * length gs + length fs' = length fs + length es.
Proof.
  induction es as [|e es IH]; intros fs bs Hfs; cbn [groupFields].
  - exists [], fs. rewrite app_nil_r. cbn [length map]. repeat split; auto; lia.
  - rewrite length_app. cbn [length].
    destruct (Nat.eqb_spec (length fs + 1) 10) as [E|E].
    + destruct (IH [] (bs ++ [grp (fs ++ [e])])%list ltac:(cbn; lia))
        as (gs & fs' & Hg & HF & Hl & Hc).
      exists ((fs ++ [e])%list :: gs), fs'. unfold grp in Hg |- *. rewrite Hg.
      split; [by rewrite <- app_assoc|].
      split; [constructor; [rewrite length_app; cbn; lia | done]|].
      split; [done|]. cbn [length] in *. lia.
    + destruct (IH (fs ++ [e])%list bs ltac:(rewrite length_app; cbn; lia))
        as (gs & fs' & Hg & HF & Hl & Hc).
      exists gs, fs'. rewrite Hg. rewrite length_app in Hc. cbn [length] in Hc.
      repeat split; auto; lia.
Qed.

(** The loop and the final flush of [SendTestResults] emit ceil(n/10)
    field groups of 1 to 10 fields for [n] entries. *)
Lemma chunk_spec (es : list TextBlockObject) (bs : list Block) :
  exists gs, flushFields (groupFields es [] bs) = (bs ++ map grp gs)%list
    /\ Forall bounded_group gs /\ length gs = (length es + 9) / 10.
Proof.
  destruct (groupFields_spec es [] bs ltac:(cbn; lia)) as (gs & fs' & Hg & HF & Hl & Hc).
  rewrite Hg. cbn [length] in Hc. rewrite Nat.add_0_l in Hc.
  exists (gs ++ (if Nat.ltb 0 (length fs') then [fs'] else []))%list.
  split; [|split].
  - unfold flushFields. destruct (Nat.ltb 0 (length fs'));
      rewrite map_app, app_assoc; cbn; [done | by rewrite app_nil_r].
  - apply Forall_app. split.
    + eapply Forall_impl; [exact HF|]. intros g Hg10. cbv beta in Hg10. unfold bounded_group. lia.
    + destruct (Nat.ltb_spec 0 (length fs'));
        [constructor; [unfold bounded_group; lia | constructor] | constructor].
  - rewrite length_app, <- Hc, ceil_groups by done.
    by destruct (Nat.ltb 0 (length fs')).
Qed.

Lemma addGroups_spec (fields : list TextBlockObject) (i : nat) (blocks : list Block) :
  exists gs, V2.addGroups fields i blocks = (blocks ++ map grp gs)%list
    /\ Forall bounded_group gs /\ length gs = (length fields - i + 9) / 10.
Proof.
  funelim (V2.addGroups fields i blocks).
  - destruct H as (gs & Hg & HF & Hl).
    exists (take ((i + 10) `min` length fields - i) (drop i fields) :: gs).
    split; [rewrite Hg; unfold grp; by rewrite <- app_assoc|].
    split.
    + constructor; [|done]. unfold bounded_group.
      rewrite length_take, length_drop. lia.
    + cbn [length]. rewrite Hl, (ceil_step (length fields - i)) by lia.
      f_equal. f_equal. lia.
  - exists []. rewrite app_nil_r. split; [done|]. split; [constructor|].
    cbn [length]. replace (length fields - i) with 0 by lia. reflexivity.
Qed.

Lemma Forall_field_groups (gs : list (list TextBlockObject)) :
  Forall bounded_group gs ->
  Forall (fun b => forall fs, field_group b = Some fs -> length fs <= 10) (map grp gs).
Proof.
  intros H. induction H as [|g gs Hg _ IH]; cbn; constructor; [|exact IH].
  intros fs E. cbn in E. injection E as <-. unfold bounded_group in Hg. lia.
Qed.

Lemma length_range {A} (l : list (string * A)) (m : gmap string A) :
  l ≡ₚ map_to_list m -> length l = size m.
Proof. intros H. by rewrite (Permutation_length H), length_map_to_list. Qed.

(** C4: every field group [SendTestResults] and [AddTestMetrics] emit has
    1 to 10 fields; the metrics section (the groups right after the
    "*Test Metrics:*" block) has ceil(N/10) groups for N metrics, and the
    checks section, present exactly when there are checks, has
    ceil(M/10) groups for M checks. *)
Theorem field_groups_chunked (results : Res.MetricResults)
    (lm : list (string * string)) (lc : list (string * Res.CheckResult)) :
  lm ≡ₚ map_to_list (Res.Metrics results) ->
  lc ≡ₚ map_to_list (Res.Checks results) ->
  (exists pre gsm rest,
     renderResults results lm lc = (pre ++ metricsHeader :: map grp gsm ++ rest)%list
     /\ length pre = 5
     /\ Forall (fun b => field_group b = None) pre
     /\ length gsm = (size (Res.Metrics results) + 9) / 10
     /\ Forall bounded_group gsm
     /\ ((size (Res.Checks results) = 0 /\ rest = [])
         \/ (exists gsc, rest = DividerBlock :: checksHeader :: map grp gsc
               /\ length gsc = (size (Res.Checks results) + 9) / 10
               /\ Forall bounded_group gsc)))
  /\ Forall (fun b => forall fs, field_group b = Some fs -> length fs <= 10)
            (renderResults results lm lc)
  /\ (forall (post_result : Post -> option string) (fmt_v : jvalue -> string)
        (rng : gmap string jvalue -> list (string * jvalue)) (c : V2.Client)
        (metrics : gmap string jvalue) (tok : string),
        V2.api c = Some tok -> rng metrics ≡ₚ map_to_list metrics ->
        exists gs,
          let blocks := ([HeaderBlock (NewTextBlockObject "plain_text" "Test Metrics" false false);
                          DividerBlock] ++ map grp gs)%list in
          let p := {| PostToken := tok; PostChannel := V2.SlackChannelID (V2.config c);
                      PostMsg := MsgOptionBlocks blocks |} in
          V2.AddTestMetrics post_result fmt_v rng c metrics = (post_result p, [p])
          /\ length gs = (size metrics + 9) / 10
          /\ Forall bounded_group gs).
Proof.
  intros Hlm Hlc.
  assert (Hshape : exists pre gsm rest,
     renderResults results lm lc = (pre ++ metricsHeader :: map grp gsm ++ rest)%list
     /\ length pre = 5
     /\ Forall (fun b => field_group b = None) pre
     /\ length gsm = (size (Res.Metrics results) + 9) / 10
     /\ Forall bounded_group gsm
     /\ ((size (Res.Checks results) = 0 /\ rest = [])
         \/ (exists gsc, rest = DividerBlock :: checksHeader :: map grp gsc
               /\ length gsc = (size (Res.Checks results) + 9) / 10
               /\ Forall bounded_group gsc))).
  { unfold renderResults.
    match goal with |- context [groupFields (map metricField lm) [] ((?pre ++ [metricsHeader])%list)] =>
      exists pre end.
    match goal with |- context [flushFields (groupFields (map metricField lm) [] ?bs)] =>
      destruct (chunk_spec (map metricField lm) bs) as (gsm & Hm & HFm & Hlenm); rewrite Hm end.
    rewrite length_map, (length_range _ _ Hlm) in Hlenm.
    destruct (Nat.ltb_spec 0 (size (Res.Checks results))) as [Hc|Hc].
    - match goal with |- context [flushFields (groupFields ?es [] ?bs)] =>
        destruct (chunk_spec es bs) as (gsc & Hc' & HFc & Hlenc); rewrite Hc' end.
      rewrite length_map, (length_range _ _ Hlc) in Hlenc.
      exists gsm, (DividerBlock :: checksHeader :: map grp gsc). split.
      { rewrite <- !app_assoc. reflexivity. }
      split; [reflexivity|]. split; [repeat constructor|].
      split; [exact Hlenm|]. split; [exact HFm|].
      right. exists gsc. split; [reflexivity|]. split; assumption.
    - exists gsm, []. split.
      { rewrite <- !app_assoc, app_nil_r. reflexivity. }
      split; [reflexivity|]. split; [repeat constructor|].
      split; [exact Hlenm|]. split; [exact HFm|].
      left. split; [lia|reflexivity]. }
  split; [exact Hshape|]. split.
  - destruct Hshape as (pre & gsm & rest & E & _ & Hpre & _ & HFm & Hrest). rewrite E.
    apply Forall_app. split.
    { eapply Forall_impl; [exact Hpre|]. intros b Hb fs Hfs. cbv beta in Hb. congruence. }
    constructor; [intros fs Hfs; discriminate|].
    apply Forall_app. split; [by apply Forall_field_groups|].
    destruct Hrest as [[_ ->]|(gsc & -> & _ & HFc)]; [constructor|].
    constructor; [intros fs Hfs; discriminate|].
    constructor; [intros fs Hfs; discriminate|].
    by apply Forall_field_groups.
  - intros post_result fmt_v rng c metrics tok Ha Hrng.
    destruct (addGroups_spec (map (V2.metricValueField fmt_v) (rng metrics)) 0
                [HeaderBlock (NewTextBlockObject "plain_text" "Test Metrics" false false);
                 DividerBlock]) as (gs & Hg & HF & Hl).
    exists gs. unfold V2.AddTestMetrics. rewrite Ha, Hg.
    rewrite length_map, Nat.sub_0_r, (length_range _ _ Hrng) in Hl.
    split; [reflexivity|]. split; assumption.
Qed.

(** Witness of C4: the theorem applied to the results of a document with
    one check, rendered in stdpp's map order. *)
Lemma field_groups_chunked_witness :
  let r := summarize ex_doc in
  map_to_list (Res.Metrics r) ≡ₚ map_to_list (Res.Metrics r)
  /\ map_to_list (Res.Checks r) ≡ₚ map_to_list (Res.Checks r)
  /\ Forall (fun b => forall fs, field_group b = Some fs -> length fs <= 10)
       (renderResults r (map_to_list (Res.Metrics r)) (map_to_list (Res.Checks r))).
Proof.
  cbv zeta. split; [reflexivity|]. split; [reflexivity|].
  exact (proj1 (proj2 (field_groups_chunked (summarize ex_doc)
           (map_to_list (Res.Metrics (summarize ex_doc)))
           (map_to_list (Res.Checks (summarize ex_doc))) (reflexivity _) (reflexivity _)))).
Defined.

(** Witness of C8: the theorem applied to fresh clients ([&Client{}]). *)
Lemma send_unconfigured_witness :
  api newClient = None /\ V2.api V2.newClient = None
  /\ SendMessage (fun _ => None) newClient "hello" = (Some err_not_configured, [])
  /\ SendTestResults K6.K6Data (fun _ => Err "unused") (fun _ => Err "unused") (fun _ => None)
       sorted_order newClient empty_doc = (Some err_not_configured, [])
  /\ V2.SendMessage (fun _ => None) map_to_list V2.newClient V2.StartMessage 0%Z
     = (Some err_not_configured, []).
Proof.
  split; [reflexivity|]. split; [reflexivity|].
  exact (send_unconfigured K6.K6Data (fun _ => Err "unused") (fun _ => Err "unused")
           (fun _ => None) sorted_order newClient V2.newClient "hello" empty_doc map_to_list
           V2.StartMessage 0%Z eq_refl eq_refl).
Defined.

(** C6 counterexample: an int64 check record with 1 pass and -2 fails has
    the nonzero total -1, yet its rate is "100%"; the formula
    passes/(passes+fails)*100 gives "-100.00%". *)
Lemma check_rate_negative_total :
  checkRate {| K6.Name := "c"; K6.Passes := 1; K6.Fails := -2 |} = "100%"
  /\ String.append (fmt_f 2 (PrimFloat.mul (PrimFloat.div 1 (-1)) 100)%float) "%" = "-100.00%"
  /\ "100%" <> "-100.00%".
Proof.
  split; [vm_compute; reflexivity|]. split; [vm_compute; reflexivity|]. discriminate.
Qed.

(** C6 (amended): the rate of a check is "100%" when the int64 sum
    passes+fails is not positive, and otherwise
    float64(passes)/float64(passes+fails)*100 with two decimals and "%";
    for non-negative counts whose sum does not overflow, that is "100%"
    when both are zero and the formula otherwise; 8 passes and 2 fails give
    "80.00%"; and [SendTestResults] stores under each check name the rate
    of a check record with that name. *)
Theorem checkRate_spec (check : K6.K6Check) :
  checkRate check =
    (if (0 <? wrap64 (K6.Passes check + K6.Fails check))%Z
     then String.append
            (fmt_f 2 (PrimFloat.mul
               (PrimFloat.div (float64_of_int64 (K6.Passes check))
                  (float64_of_int64 (wrap64 (K6.Passes check + K6.Fails check)))) 100))
            "%"
     else "100%")
  /\ (K6.Passes check = 0%Z -> K6.Fails check = 0%Z -> checkRate check = "100%")
  /\ ((0 <= K6.Passes check)%Z -> (0 <= K6.Fails check)%Z ->
      (0 < K6.Passes check + K6.Fails check < 2 ^ 63)%Z ->
      checkRate check =
        String.append
          (fmt_f 2 (PrimFloat.mul
             (PrimFloat.div (float64_of_int64 (K6.Passes check))
                (float64_of_int64 (K6.Passes check + K6.Fails check))) 100))
          "%")
  /\ checkRate {| K6.Name := "ok"; K6.Passes := 8; K6.Fails := 2 |} = "80.00%"
  /\ (forall (k : K6.K6Data) n r, Res.Checks (summarize k) !! n = Some r ->
        exists ch, In ch (K6.Checks k) /\ K6.Name ch = n /\ Res.Rate r = checkRate ch).
Proof.
  assert (Hgen : checkRate check =
    (if (0 <? wrap64 (K6.Passes check + K6.Fails check))%Z
     then String.append
            (fmt_f 2 (PrimFloat.mul
               (PrimFloat.div (float64_of_int64 (K6.Passes check))
                  (float64_of_int64 (wrap64 (K6.Passes check + K6.Fails check)))) 100))
            "%"
     else "100%")).
  { unfold checkRate. rewrite float64_of_int64_pos; [reflexivity|].
    unfold wrap64. pose proof (Z.mod_pos_bound (K6.Passes check + K6.Fails check + 2 ^ 63) (2 ^ 64)).
    lia. }
  split; [exact Hgen|]. split.
  { intros Hp Hf. rewrite Hgen, Hp, Hf. reflexivity. }
  split.
  { intros Hp Hf Hs. rewrite Hgen.
    assert (Hw : wrap64 (K6.Passes check + K6.Fails check) = (K6.Passes check + K6.Fails check)%Z).
    { unfold wrap64. rewrite Z.mod_small by lia. lia. }
    rewrite Hw. destruct (Z.ltb_spec 0 (K6.Passes check + K6.Fails check)); [reflexivity|lia]. }
  split; [vm_compute; reflexivity|].
  intros k n r H. unfold summarize in H. cbn [Res.Checks] in H.
  destruct (processChecks_lookup (K6.Checks k) ∅ n r H) as [H1|(ch & Hin & Hn & ->)].
  - rewrite lookup_empty in H1. discriminate.
  - exists ch. split; [exact Hin|]. split; [exact Hn|reflexivity].
Qed.

(** C7: [Configure] of [src/slack.go] returns an error and the client
    unchanged when the token or the channel is empty, and succeeds exactly
    when both are non-empty; [Configure] of [src/unnamed/part_002] rejects
    an empty token the same way, but accepts an empty [SlackChannelID]
    and configures the client with it. *)
Theorem configure_guards (c : Client) (token channel : string) :
  ((token = "" \/ channel = "") -> exists e, Configure c token channel = (c, Some e))
  /\ (snd (Configure c token channel) = None <-> token <> "" /\ channel <> "")
  /\ (token <> "" -> channel <> "" ->
      Configure c token channel = ({| api := Some token; channel := channel |}, None))
  /\ (forall (c2 : V2.Client) (cfg : V2.Config) (user : string) (now : Z),
        token = "" -> V2.Configure c2 token cfg user now = (c2, Some "slack token cannot be empty"))
  /\ V2.Configure V2.newClient "xoxb-token"
       {| V2.SlackChannelID := ""; V2.DashboardURLs := ∅; V2.GraphURLs := ∅ |} "ci" 0%Z
     = ({| V2.token := "xoxb-token"; V2.api := Some "xoxb-token";
           V2.config := {| V2.SlackChannelID := ""; V2.DashboardURLs := ∅; V2.GraphURLs := ∅ |};
           V2.dashboardStart := 0%Z; V2.executionUser := "ci" |}, None).
Proof.
  split; [|split; [|split; [|split]]].
  - intros Hor. unfold Configure.
    destruct (String.eqb_spec token "") as [Ht|Ht]; [eexists; reflexivity|].
    destruct (String.eqb_spec channel "") as [Hc|Hc]; [eexists; reflexivity|].
    destruct Hor; contradiction.
  - unfold Configure.
    destruct (String.eqb_spec token "") as [Ht|Ht]; [split; [discriminate|tauto]|].
    destruct (String.eqb_spec channel "") as [Hc|Hc]; [split; [discriminate|tauto]|].
    split; [intros _; split; assumption|reflexivity].
  - intros Ht Hc. unfold Configure.
    destruct (String.eqb_spec token "") as [E|_]; [contradiction|].
    destruct (String.eqb_spec channel "") as [E|_]; [contradiction|reflexivity].
  - intros c2 cfg user now ->. reflexivity.
  - reflexivity.
Qed.

(** C9: on a configured client of [src/unnamed/part_002], [Configure]
    records the configure time; the Start message is the title, a divider,
    the user line and a divider, then one button per configured dashboard
    whose URL is the base URL with from_ts = the configure time and
    to_ts = the configure time plus one hour (Unix seconds), then a
    divider; the End message is the same four blocks, then, when graphs are
    configured, a title, a divider and an image block and a divider per
    graph URL, then the dashboard buttons with from_ts = the configure time
    and to_ts = the time of the call, then a divider. *)
Theorem sendMessage_start_end (post_result : Post -> option string)
    (rng : gmap string string -> list (string * string)) (c : V2.Client) (tok : string)
    (now : Z) :
  V2.api c = Some tok -> (forall m, rng m ≡ₚ map_to_list m) ->
  (forall c0 tok0 cfg user t, tok0 <> "" ->
     V2.dashboardStart (fst (V2.Configure c0 tok0 cfg user t)) = t)
  /\ (exists links,
        links ≡ₚ map_to_list
          ((fun baseURL => String.append baseURL
              (String.append "?from_ts=" (String.append (fmt_d (V2.unix (V2.dashboardStart c)))
                 (String.append "&to_ts=" (fmt_d (V2.unix (V2.dashboardStart c) + 3600)%Z)))))
           <$> V2.DashboardURLs (V2.config c))
        /\ V2.SendMessage post_result rng c V2.StartMessage now
           = let p := {| PostToken := tok; PostChannel := V2.SlackChannelID (V2.config c);
                         PostMsg := MsgOptionBlocks
                           (V2.messageHeader c V2.StartMessage
                            ++ map V2.dashboardButton links ++ [DividerBlock]) |} in
             (post_result p, [p]))
  /\ (exists graphs links,
        graphs ≡ₚ map_to_list (V2.GraphURLs (V2.config c))
        /\ links ≡ₚ map_to_list
             ((fun baseURL => String.append baseURL
                 (String.append "?from_ts=" (String.append (fmt_d (V2.unix (V2.dashboardStart c)))
                    (String.append "&to_ts=" (fmt_d (V2.unix now))))))
              <$> V2.DashboardURLs (V2.config c))
        /\ V2.SendMessage post_result rng c V2.EndMessage now
           = let p := {| PostToken := tok; PostChannel := V2.SlackChannelID (V2.config c);
                         PostMsg := MsgOptionBlocks
                           (V2.messageHeader c V2.EndMessage
                            ++ match graphs with
                               | [] => []
                               | _ => HeaderBlock (NewTextBlockObject "plain_text"
                                        ":stopwatch: Test Results Summary" true false)
                                      :: DividerBlock :: concat (map V2.graphImage graphs)
                               end
                            ++ map V2.dashboardButton links ++ [DividerBlock]) |} in
             (post_result p, [p])).
Proof.
  intros Ha Hrng. split; [|split].
  - intros c0 tok0 cfg user t Ht. unfold V2.Configure.
    destruct (String.eqb_spec tok0 "") as [E|_]; [contradiction|reflexivity].
  - exists (rng (V2.createDashboardLinks c true now)). split.
    + rewrite Hrng. unfold V2.createDashboardLinks, V2.timeRange.
      rewrite unix_add_hour. reflexivity.
    + unfold V2.SendMessage. rewrite Ha. reflexivity.
  - exists (rng (V2.GraphURLs (V2.config c))), (rng (V2.createDashboardLinks c false now)).
    split; [apply Hrng|]. split.
    + rewrite Hrng. reflexivity.
    + unfold V2.SendMessage. rewrite Ha.
      rewrite <- (length_range _ _ (Hrng (V2.GraphURLs (V2.config c)))).
      destruct (rng (V2.GraphURLs (V2.config c))) as [|g gs]; [reflexivity|].
      cbv zeta. change (String.eqb V2.EndMessage V2.StartMessage) with false.
      change (String.eqb V2.EndMessage V2.EndMessage) with true.
      cbn [length Nat.ltb Nat.leb]. unfold V2.createGraphBlocks.
      rewrite <- app_assoc. reflexivity.
Qed.

(** Witness of C9: a client configured at the epoch with one dashboard,
    in stdpp's map order. *)
Lemma sendMessage_start_end_witness :
  let c := {| V2.token := "xoxb-token"; V2.api := Some "xoxb-token";
              V2.config := {| V2.SlackChannelID := "C0";
                              V2.DashboardURLs := <["grafana" := "https://grafana.example/d/k6"]> ∅;
                              V2.GraphURLs := ∅ |};
              V2.dashboardStart := 0%Z; V2.executionUser := "ci" |} in
  V2.api c = Some "xoxb-token"
  /\ (forall m : gmap string string, map_to_list m ≡ₚ map_to_list m)
  /\ exists links,
       links ≡ₚ [("grafana", "https://grafana.example/d/k6?from_ts=0&to_ts=3600")]
       /\ V2.SendMessage (fun _ => None) map_to_list c V2.StartMessage 60000000000%Z
          = let p := {| PostToken := "xoxb-token"; PostChannel := "C0";
                        PostMsg := MsgOptionBlocks
                          (V2.messageHeader c V2.StartMessage
                           ++ map V2.dashboardButton links ++ [DividerBlock]) |} in
            (None, [p]).
Proof.
  cbv zeta. split; [reflexivity|]. split; [intros m; reflexivity|].
  destruct (sendMessage_start_end (fun _ => None) map_to_list
              {| V2.token := "xoxb-token"; V2.api := Some "xoxb-token";
                 V2.config := {| V2.SlackChannelID := "C0";
                                 V2.DashboardURLs := <["grafana" := "https://grafana.example/d/k6"]> ∅;
                                 V2.GraphURLs := ∅ |};
                 V2.dashboardStart := 0%Z; V2.executionUser := "ci" |}
              "xoxb-token" 60000000000%Z eq_refl (fun m => reflexivity _))
    as (_ & (links & Hl & Hs) & _).
  exists links. split; [|exact Hs].
  rewrite Hl. vm_compute. reflexivity.
Defined.

(* ------------------------------------------------------------------ *)
(** ** Further properties of the code *)

Lemma Forall_removelast {A} (P : A -> Prop) (l : list A) :
  Forall P l -> Forall P (removelast l).
Proof.
  induction 1 as [|x l Hx _ IH]; [constructor|].
  destruct l as [|y l]; cbn [removelast]; [constructor|constructor; assumption].
Qed.

(** The field loop keeps the fields in order: the flushed groups and the
    pending fields, read in order, are the pending fields it started with
    followed by the entries. *)
Lemma groupFields_concat (es : list TextBlockObject) :
  forall fs bs, length fs < 10 ->
  exists gs fs', groupFields es fs bs = ((bs ++ map grp gs)%list, fs')
    /\ Forall (fun g => length g = 10) gs /\ length fs' < 10
    /\ (concat gs ++ fs' = fs ++ es)%list.
Proof.
  induction es as [|e es IH]; intros fs bs Hfs; cbn [groupFields].
  - exists [], fs. rewrite app_nil_r. split; [reflexivity|]. split; [constructor|].
    split; [exact Hfs|]. cbn. by rewrite app_nil_r.
  - rewrite length_app. cbn [length].
    destruct (Nat.eqb_spec (length fs + 1) 10) as [E|E].
    + destruct (IH [] (bs ++ [grp (fs ++ [e])])%list ltac:(cbn; lia))
        as (gs & fs' & Hg & HF & Hl & Hc).
      exists ((fs ++ [e])%list :: gs), fs'. unfold grp in Hg |- *. rewrite Hg.
      split; [by rewrite <- app_assoc|].
      split; [constructor; [rewrite length_app; cbn; lia | exact HF]|].
      split; [exact Hl|].
      cbn [concat]. rewrite <- app_assoc, Hc. cbn. by rewrite <- app_assoc.
    + destruct (IH (fs ++ [e])%list bs ltac:(rewrite length_app; cbn; lia))
        as (gs & fs' & Hg & HF & Hl & Hc).
      exists gs, fs'. rewrite Hg. split; [reflexivity|]. split; [exact HF|].
      split; [exact Hl|]. rewrite Hc, <- app_assoc. reflexivity.
Qed.

(** The loop and the final flush of [SendTestResults]: the groups, read in
    order, are the entries; every group but the last has 10 fields. *)
Lemma chunk_concat (es : list TextBlockObject) (bs : list Block) :
  exists gs, flushFields (groupFields es [] bs) = (bs ++ map grp gs)%list
    /\ concat gs = es /\ Forall bounded_group gs
    /\ Forall (fun g => length g = 10) (removelast gs).
Proof.
  destruct (groupFields_concat es [] bs ltac:(cbn; lia)) as (gs & fs' & Hg & HF & Hl & Hc).
  rewrite Hg. unfold flushFields. cbn in Hc.
  assert (HB : Forall bounded_group gs).
  { eapply Forall_impl; [exact HF|]. intros g Hg'. cbv beta in Hg'.
    unfold bounded_group. lia. }
  destruct (Nat.ltb_spec 0 (length fs')) as [Hp|Hp].
  - exists (gs ++ [fs'])%list. split; [by rewrite map_app, app_assoc|].
    split; [rewrite concat_app; cbn; rewrite app_nil_r; exact Hc|].
    split; [apply Forall_app; split; [exact HB|constructor; [unfold bounded_group; lia|constructor]]|].
    rewrite removelast_last. exact HF.
  - exists gs. destruct fs' as [|f fs']; [|cbn in Hp; lia].
    rewrite app_nil_r in Hc. split; [reflexivity|]. split; [exact Hc|].
    split; [exact HB|]. apply Forall_removelast, HF.
Qed.

(** The blocks of [renderResults], with the field groups read in order. *)
Lemma render_shape (results : Res.MetricResults)
    (lm : list (string * string)) (lc : list (string * Res.CheckResult)) :
  exists gsm rest,
    renderResults results lm lc =
      ([HeaderBlock (NewTextBlockObject "plain_text"
          (String.append "Performance Test Results: " (Res.TestName results)) true false);
        DividerBlock;
        SectionBlock (Some (NewTextBlockObject "mrkdwn"
          (String.concat "" ["*Status:* "; Res.Status results; " ";
             if String.eqb (Res.Status results) "passed" then emoji_check else emoji_cross])
          false false)) [] None;
        SectionBlock (Some (NewTextBlockObject "mrkdwn"
          (String.append "*Environment:* " (Res.Environment results)) false false)) [] None;
        DividerBlock; metricsHeader] ++ map grp gsm ++ rest)%list
    /\ concat gsm = map metricField lm /\ Forall bounded_group gsm
    /\ Forall (fun g => length g = 10) (removelast gsm)
    /\ ((size (Res.Checks results) = 0 /\ rest = [])
        \/ (0 < size (Res.Checks results)
            /\ exists gsc, rest = DividerBlock :: checksHeader :: map grp gsc
                 /\ concat gsc = map checkField lc /\ Forall bounded_group gsc
                 /\ Forall (fun g => length g = 10) (removelast gsc))).
Proof.
  unfold renderResults.
  match goal with |- context [flushFields (groupFields (map metricField lm) [] ?bs)] =>
    destruct (chunk_concat (map metricField lm) bs) as (gsm & Hm & Hcm & HFm & HRm);
    rewrite Hm end.
  exists gsm.
  destruct (Nat.ltb_spec 0 (size (Res.Checks results))) as [Hc|Hc].
  - match goal with |- context [flushFields (groupFields (map checkField lc) [] ?bs)] =>
      destruct (chunk_concat (map checkField lc) bs) as (gsc & Hc' & Hcc & HFc & HRc);
      rewrite Hc' end.
    exists (DividerBlock :: checksHeader :: map grp gsc).
    split; [rewrite <- !app_assoc; reflexivity|].
    split; [exact Hcm|]. split; [exact HFm|]. split; [exact HRm|].
    right. split; [exact Hc|]. exists gsc. split; [reflexivity|].
    split; [exact Hcc|]. split; assumption.
  - exists []. split; [rewrite app_nil_r, <- !app_assoc; reflexivity|].
    split; [exact Hcm|]. split; [exact HFm|]. split; [exact HRm|].
    left. split; [lia|reflexivity].
Qed.

(** The check loop, entry by entry: a name maps to the record of the last
    check with that name, or keeps its earlier value. *)
Lemma processChecks_last (cs : list K6.K6Check) : forall acc n,
  processChecks cs acc !! n =
    match last (List.filter (fun ch => String.eqb (K6.Name ch) n) cs) with
    | Some ch => Some {| Res.Passes := K6.Passes ch; Res.Fails := K6.Fails ch;
                        Res.Rate := checkRate ch |}
    | None => acc !! n
    end.
Proof.
  induction cs as [|ch cs IH]; intros acc n; [reflexivity|].
  cbn [processChecks fold_left List.filter]. unfold processChecks in IH. rewrite IH.
  destruct (String.eqb_spec (K6.Name ch) n) as [<-|Hne].
  - rewrite last_cons. destruct (last (List.filter _ cs)); [reflexivity|].
    by rewrite lookup_insert_eq.
  - destruct (last (List.filter _ cs)); [reflexivity|].
    by rewrite lookup_insert_ne.
Qed.

(** The slice loop of [AddTestMetrics]: the groups, read in order, are
    the fields from [i] on; every group but the last has 10 fields. *)
Lemma addGroups_concat (fields : list TextBlockObject) (i : nat) (blocks : list Block) :
  exists gs, V2.addGroups fields i blocks = (blocks ++ map grp gs)%list
    /\ concat gs = drop i fields /\ Forall bounded_group gs
    /\ Forall (fun g => length g = 10) (removelast gs).
Proof.
  funelim (V2.addGroups fields i blocks).
  - destruct H as (gs & Hg & Hc & HF & Hr).
    exists (take ((i + 10) `min` length fields - i) (drop i fields) :: gs).
    split; [rewrite Hg; unfold grp; by rewrite <- app_assoc|].
    assert (Hd : drop (i + 10) fields
                 = drop ((i + 10) `min` length fields - i) (drop i fields)).
    { rewrite drop_drop. destruct (le_lt_dec (i + 10) (length fields)).
      - f_equal. lia.
      - rewrite !drop_ge by lia. reflexivity. }
    split; [cbn [concat]; rewrite Hc, Hd; apply take_drop|].
    split.
    { constructor; [|exact HF]. unfold bounded_group.
      rewrite length_take, length_drop. lia. }
    destruct gs as [|g gs']; [constructor|].
    cbn [removelast]. constructor; [|exact Hr].
    apply Forall_cons in HF as [Hg0 _]. unfold bounded_group in Hg0.
    assert (Hlen : 1 <= length (concat (g :: gs'))) by (cbn [concat]; rewrite length_app; lia).
    rewrite Hc, length_drop in Hlen.
    rewrite length_take, length_drop. lia.
  - exists []. split; [by rewrite app_nil_r|].
    split; [cbn; symmetry; apply drop_ge; lia|]. split; constructor.
Qed.

Lemma configure_fold (calls : list (string * string)) : forall c,
  fold_left (fun c call => fst (Configure c call.1 call.2)) calls c
  = match last (List.filter (fun call => negb (String.eqb call.1 "")
                                         && negb (String.eqb call.2 "")) calls) with
    | Some (t, ch) => {| api := Some t; channel := ch |}
    | None => c
    end.
Proof.
  induction calls as [|[t ch] calls IH]; intros c; [reflexivity|].
  cbn [fold_left List.filter fst snd]. rewrite IH.
  unfold Configure.
  destruct (String.eqb_spec t "") as [Ht|Ht]; cbn [negb andb];
    [destruct (last _) as [[]|]; reflexivity|].
  destruct (String.eqb_spec ch "") as [Hc|Hc]; cbn [negb andb fst];
    [destruct (last _) as [[]|]; reflexivity|].
  rewrite last_cons. destruct (last _) as [[]|]; reflexivity.
Qed.

(** X1: after any sequence of [Configure (token, channel)] calls, the
    client holds the token and channel of the last call whose token and
    channel were both non-empty (failed calls change nothing), and
    [SendMessage] then posts the text, unescaped, to that channel with
    that token and returns the error of the post; with no successful
    call the client is the one it started as. *)
Theorem configure_sequence_then_send (calls : list (string * string)) (c : Client) :
  fold_left (fun c call => fst (Configure c call.1 call.2)) calls c
    = match last (List.filter (fun call => negb (String.eqb call.1 "")
                                           && negb (String.eqb call.2 "")) calls) with
      | Some (t, ch) => {| api := Some t; channel := ch |}
      | None => c
      end
  /\ (forall post_result message t ch,
        last (List.filter (fun call => negb (String.eqb call.1 "")
                                       && negb (String.eqb call.2 "")) calls) = Some (t, ch) ->
        SendMessage post_result (fold_left (fun c call => fst (Configure c call.1 call.2)) calls c)
          message
        = let p := {| PostToken := t; PostChannel := ch; PostMsg := MsgOptionText message false |} in
          (post_result p, [p])).
Proof.
  split; [apply configure_fold|].
  intros post_result message t ch H. rewrite configure_fold, H. reflexivity.
Qed.

(** X2: the message of [SendTestResults] opens with the title
    "Performance Test Results: API Performance Test", a divider, the line
    "*Status:* failed" with a cross mark when the decoded http_req_failed
    rate is above zero and "*Status:* passed" with a check mark otherwise,
    the line "*Environment:* staging", a divider and the
    "*Test Metrics:*" block. *)
Theorem sendTestResults_opening (k : K6.K6Data)
    (lm : list (string * string)) (lc : list (string * Res.CheckResult)) :
  exists rest,
    renderResults (summarize k) lm lc =
      HeaderBlock (NewTextBlockObject "plain_text"
        "Performance Test Results: API Performance Test" true false)
      :: DividerBlock
      :: SectionBlock (Some (NewTextBlockObject "mrkdwn"
           (if PrimFloat.ltb 0 (getMetricValue k "http_req_failed" "rate")
            then String.append "*Status:* failed " emoji_cross
            else String.append "*Status:* passed " emoji_check) false false)) [] None
      :: SectionBlock (Some (NewTextBlockObject "mrkdwn" "*Environment:* staging" false false))
           [] None
      :: DividerBlock :: metricsHeader :: rest.
Proof.
  destruct (render_shape (summarize k) lm lc) as (gsm & rest & E & _).
  rewrite E. exists (map grp gsm ++ rest)%list.
  assert (Hs : Res.Status (summarize k)
               = if PrimFloat.ltb 0 (getMetricValue k "http_req_failed" "rate")
                 then "failed" else "passed") by reflexivity.
  rewrite Hs. destruct (PrimFloat.ltb 0 (getMetricValue k "http_req_failed" "rate"));
    reflexivity.
Qed.

(** X3: [renderResults] shows every entry exactly once, in the order the
    map iteration visits them: the metric field groups, read in order, are
    one field "*name*\nvalue" per entry of the metrics order, and the check
    field groups one field per entry of the checks order; every group has
    1 to 10 fields and every group but the last of its section has 10; the
    checks section is a divider, the "*Checks Results:*" block and the
    groups, present exactly when the results have checks. *)
Theorem renderResults_fields (results : Res.MetricResults)
    (lm : list (string * string)) (lc : list (string * Res.CheckResult)) :
  exists pre gsm rest,
    renderResults results lm lc = (pre ++ metricsHeader :: map grp gsm ++ rest)%list
    /\ Forall (fun b => field_group b = None) pre
    /\ concat gsm = map metricField lm /\ Forall bounded_group gsm
    /\ Forall (fun g => length g = 10) (removelast gsm)
    /\ ((size (Res.Checks results) = 0 /\ rest = [])
        \/ (0 < size (Res.Checks results)
            /\ exists gsc, rest = DividerBlock :: checksHeader :: map grp gsc
                 /\ concat gsc = map checkField lc /\ Forall bounded_group gsc
                 /\ Forall (fun g => length g = 10) (removelast gsc))).
Proof.
  destruct (render_shape results lm lc) as (gsm & rest & E & H).
  rewrite E.
  match goal with |- context [((?b1 :: ?b2 :: ?b3 :: ?b4 :: ?b5 :: [metricsHeader]) ++ _)%list] =>
    exists [b1; b2; b3; b4; b5] end.
  exists gsm, rest. split; [reflexivity|].
  split; [repeat (apply Forall_cons; split; [reflexivity|]); apply Forall_nil; done|].
  exact H.
Qed.

(** X4: whatever the document, the metrics section of the
    [SendTestResults] message is exactly two field groups of 10 fields,
    holding the 20 metric rows in the iteration order; a checks section,
    if any, follows them. *)
Theorem sendTestResults_two_metric_groups (k : K6.K6Data)
    (lm : list (string * string)) (lc : list (string * Res.CheckResult)) :
  lm ≡ₚ map_to_list (Res.Metrics (summarize k)) ->
  exists pre g1 g2 rest,
    renderResults (summarize k) lm lc = (pre ++ metricsHeader :: grp g1 :: grp g2 :: rest)%list
    /\ length pre = 5
    /\ length g1 = 10 /\ length g2 = 10 /\ (g1 ++ g2)%list = map metricField lm
    /\ (rest = [] \/ exists rest', rest = DividerBlock :: checksHeader :: rest').
Proof.
  intros Hlm.
  destruct (render_shape (summarize k) lm lc) as (gsm & rest & E & Hc & HF & HR & Hrest).
  assert (Hn : length (map metricField lm) = 20)
    by (rewrite length_map, (length_range _ _ Hlm); apply summarize_size).
  rewrite <- Hc in Hn.
  assert (Hr : rest = [] \/ exists rest', rest = DividerBlock :: checksHeader :: rest').
  { destruct Hrest as [[_ ->]|(_ & gsc & -> & _)]; [left; reflexivity|].
    right. eexists. reflexivity. }
  destruct gsm as [|g1 [|g2 [|g3 gs]]].
  - cbn in Hn. lia.
  - apply Forall_cons in HF as [Hb _]. unfold bounded_group in Hb.
    cbn [concat] in Hn. rewrite app_nil_r in Hn. lia.
  - cbn [removelast] in HR. apply Forall_cons in HR as [H1 _].
    cbn [concat] in Hn. rewrite app_nil_r, length_app in Hn.
    rewrite E.
    match goal with |- context [((?b1 :: ?b2 :: ?b3 :: ?b4 :: ?b5 :: [metricsHeader]) ++ _)%list] =>
      exists [b1; b2; b3; b4; b5] end.
    exists g1, g2, rest. split; [reflexivity|]. split; [reflexivity|].
    split; [exact H1|]. split; [lia|]. split; [|exact Hr].
    rewrite <- Hc. cbn [concat]. by rewrite app_nil_r.
  - cbn [removelast] in HR. apply Forall_cons in HR as [H1 HR].
    apply Forall_cons in HR as [H2 _].
    apply Forall_cons in HF as [_ HF]. apply Forall_cons in HF as [_ HF].
    apply Forall_cons in HF as [Hb3 _]. unfold bounded_group in Hb3.
    cbn [concat] in Hn. rewrite !length_app in Hn. lia.
Qed.

(** Witness of X4: the document with one duration and one check, in
    stdpp's map order. *)
Lemma sendTestResults_two_metric_groups_witness :
  map_to_list (Res.Metrics (summarize ex_doc)) ≡ₚ map_to_list (Res.Metrics (summarize ex_doc))
  /\ exists g1 g2, length g1 = 10 /\ length g2 = 10
       /\ (g1 ++ g2)%list = map metricField (map_to_list (Res.Metrics (summarize ex_doc))).
Proof.
  split; [reflexivity|].
  destruct (sendTestResults_two_metric_groups ex_doc
              (map_to_list (Res.Metrics (summarize ex_doc)))
              (map_to_list (Res.Checks (summarize ex_doc))) (reflexivity _))
    as (pre & g1 & g2 & rest & _ & _ & H1 & H2 & H3 & _).
  exists g1, g2. split; [exact H1|]. split; [exact H2|exact H3].
Defined.

(** X5: [SendTestResults] reports, under a check name, the passes, fails
    and rate of the last check with that name in the document (later
    records with the same name replace earlier ones), and nothing for a
    name no check has. *)
Theorem summarize_check_last (k : K6.K6Data) (n : string) :
  Res.Checks (summarize k) !! n =
    (fun ch => {| Res.Passes := K6.Passes ch; Res.Fails := K6.Fails ch;
                  Res.Rate := checkRate ch |})
      <$> last (List.filter (fun ch => String.eqb (K6.Name ch) n) (K6.Checks k)).
Proof.
  change (Res.Checks (summarize k)) with (processChecks (K6.Checks k) ∅).
  rewrite processChecks_last. by destruct (last _).
Qed.

(** X6: for every document, the extracted metrics map has exactly the 20
    rows of the table: a label has a value iff it is a row's label, and
    the value is the row's format of [getMetricValue] of its metric and
    field. *)
Theorem summarize_metrics_table (k : K6.K6Data) (label v : string) :
  Res.Metrics (summarize k) !! label = Some v <->
  exists m f fmt, In (label, m, f, fmt) metric_table /\ v = fmt (getMetricValue k m f).
Proof.
  split.
  - intros H. unfold summarize in H. cbn [Res.Metrics] in H.
    rewrite !lookup_insert_Some, lookup_empty in H.
    repeat destruct H as [[<- <-]|[_ H]]; try discriminate;
      do 3 eexists; (split; [unfold metric_table; cbn [In];
                             repeat (first [left; reflexivity | right]) | reflexivity]).
  - intros (m & f & fmt & Hin & ->).
    pose proof (summarize_rows k) as HF. rewrite List.Forall_forall in HF.
    exact (HF _ Hin).
Qed.

(** X7: the results have no checks exactly when the decoded document
    lists no checks, and the rendered message contains the
    "*Checks Results:*" block exactly when the document lists a check. *)
Theorem summarize_checks_empty (k : K6.K6Data) :
  (size (Res.Checks (summarize k)) = 0 <-> K6.Checks k = [])
  /\ (forall (lm : list (string * string)) (lc : list (string * Res.CheckResult)),
        In checksHeader (renderResults (summarize k) lm lc) <-> K6.Checks k <> []).
Proof.
  assert (Hsz : size (Res.Checks (summarize k)) = 0 <-> K6.Checks k = []).
  { change (Res.Checks (summarize k)) with (processChecks (K6.Checks k) ∅).
    rewrite map_size_empty_iff.
    destruct (K6.Checks k) as [|ch cs]; split; intros H; try reflexivity; try discriminate.
    exfalso. pose proof (processChecks_last (ch :: cs) ∅ (K6.Name ch)) as L.
    rewrite H, lookup_empty in L. cbn [List.filter] in L.
    rewrite String.eqb_refl, last_cons in L. destruct (last _); discriminate. }
  split; [exact Hsz|]. intros lm lc.
  destruct (render_shape (summarize k) lm lc) as (gsm & rest & E & _ & _ & _ & Hrest).
  rewrite E. split.
  - intros Hin HK. apply Hsz in HK.
    destruct Hrest as [[_ ->]|[Hp _]]; [|lia].
    rewrite app_nil_r in Hin. apply in_app_iff in Hin as [Hin|Hin].
    + cbn [In] in Hin. repeat destruct Hin as [Hin|Hin]; try discriminate; contradiction.
    + apply in_map_iff in Hin as (g & Hg & _). discriminate.
  - intros HK. destruct Hrest as [[Hs _]|[_ (gsc & -> & _)]]; [apply Hsz in Hs; contradiction|].
    apply in_app_iff. right. apply in_app_iff. right. right. left. reflexivity.
Qed.

(** X8: the second version's [SendMessage] accepts any message type: for
    a type other than "Start" and "End" it posts the title
    "Performance Test <type>", a divider, the user line and a divider,
    and nothing else. *)
Theorem v2_sendMessage_other_type (post_result : Post -> option string)
    (rng : gmap string string -> list (string * string)) (c : V2.Client) (tok : string)
    (messageType : string) (now : Z) :
  V2.api c = Some tok -> messageType <> V2.StartMessage -> messageType <> V2.EndMessage ->
  V2.SendMessage post_result rng c messageType now =
    let p := {| PostToken := tok; PostChannel := V2.SlackChannelID (V2.config c);
                PostMsg := MsgOptionBlocks (V2.messageHeader c messageType) |} in
    (post_result p, [p]).
Proof.
  intros Ha Hs He. unfold V2.SendMessage. rewrite Ha.
  destruct (String.eqb_spec messageType V2.StartMessage); [contradiction|].
  destruct (String.eqb_spec messageType V2.EndMessage); [contradiction|].
  reflexivity.
Qed.

Lemma v2_sendMessage_other_type_witness :
  V2.api v2_client_ex = Some "xoxb-token" /\ "Progress" <> V2.StartMessage
  /\ "Progress" <> V2.EndMessage
  /\ V2.SendMessage (fun _ => None) map_to_list v2_client_ex "Progress" 0%Z =
       let p := {| PostToken := "xoxb-token"; PostChannel := "C0";
                   PostMsg := MsgOptionBlocks (V2.messageHeader v2_client_ex "Progress") |} in
       (None, [p]).
Proof.
  split; [reflexivity|]. split; [discriminate|]. split; [discriminate|].
  exact (v2_sendMessage_other_type (fun _ => None) map_to_list v2_client_ex "xoxb-token"
           "Progress" 0%Z eq_refl ltac:(discriminate) ltac:(discriminate)).
Defined.

(** X9: with no dashboards and no graphs configured, the Start and End
    messages of the second version are the title, a divider, the user
    line, a divider, and one more divider (the empty button list's). *)
Theorem v2_sendMessage_no_links (post_result : Post -> option string)
    (rng : gmap string string -> list (string * string)) (c : V2.Client) (tok : string)
    (now : Z) :
  V2.api c = Some tok -> (forall m, rng m ≡ₚ map_to_list m) ->
  V2.DashboardURLs (V2.config c) = ∅ -> V2.GraphURLs (V2.config c) = ∅ ->
  forall messageType, messageType = V2.StartMessage \/ messageType = V2.EndMessage ->
  V2.SendMessage post_result rng c messageType now =
    let p := {| PostToken := tok; PostChannel := V2.SlackChannelID (V2.config c);
                PostMsg := MsgOptionBlocks (V2.messageHeader c messageType ++ [DividerBlock]) |} in
    (post_result p, [p]).
Proof.
  intros Ha Hrng HD HG messageType Hmt.
  assert (Hnil : rng ∅ = []).
  { apply Permutation_nil. symmetry. rewrite <- map_to_list_empty. apply Hrng. }
  assert (Hl : forall b, V2.createDashboardLinks c b now = ∅).
  { intros b. unfold V2.createDashboardLinks. rewrite HD. apply fmap_empty. }
  unfold V2.SendMessage. rewrite Ha, !Hl, HG, Hnil.
  destruct Hmt as [->| ->]; reflexivity.
Qed.

Lemma v2_sendMessage_no_links_witness :
  V2.api v2_client_bare = Some "xoxb-token"
  /\ (forall m : gmap string string, map_to_list m ≡ₚ map_to_list m)
  /\ V2.DashboardURLs (V2.config v2_client_bare) = ∅
  /\ V2.GraphURLs (V2.config v2_client_bare) = ∅
  /\ V2.SendMessage (fun _ => None) map_to_list v2_client_bare V2.EndMessage 0%Z =
       let p := {| PostToken := "xoxb-token"; PostChannel := "C0";
                   PostMsg := MsgOptionBlocks
                     (V2.messageHeader v2_client_bare V2.EndMessage ++ [DividerBlock]) |} in
       (None, [p]).
Proof.
  split; [reflexivity|]. split; [intros m; reflexivity|].
  split; [reflexivity|]. split; [reflexivity|].
  exact (v2_sendMessage_no_links (fun _ => None) map_to_list v2_client_bare "xoxb-token" 0%Z
           eq_refl (fun m => reflexivity _) eq_refl eq_refl V2.EndMessage (or_intror eq_refl)).
Defined.

(** X10: on a configured client, [AddTestMetrics] posts the title
    "Test Metrics", a divider and field groups that, read in order, hold
    one field "*name*\n%v" per metric in the iteration order; every group
    has 1 to 10 fields and every group but the last has 10; for no metrics
    it posts the title and the divider alone. *)
Theorem v2_addTestMetrics_fields (post_result : Post -> option string)
    (fmt_v : jvalue -> string) (rng : gmap string jvalue -> list (string * jvalue))
    (c : V2.Client) (metrics : gmap string jvalue) (tok : string) :
  V2.api c = Some tok ->
  exists gs,
    V2.AddTestMetrics post_result fmt_v rng c metrics =
      (let p := {| PostToken := tok; PostChannel := V2.SlackChannelID (V2.config c);
                   PostMsg := MsgOptionBlocks
                     ([HeaderBlock (NewTextBlockObject "plain_text" "Test Metrics" false false);
                       DividerBlock] ++ map grp gs)%list |} in
       (post_result p, [p]))
    /\ concat gs = map (V2.metricValueField fmt_v) (rng metrics)
    /\ Forall bounded_group gs
    /\ Forall (fun g => length g = 10) (removelast gs)
    /\ (rng metrics = [] -> gs = []).
Proof.
  intros Ha.
  destruct (addGroups_concat (map (V2.metricValueField fmt_v) (rng metrics)) 0
              [HeaderBlock (NewTextBlockObject "plain_text" "Test Metrics" false false);
               DividerBlock]) as (gs & Hg & Hc & HF & HR).
  exists gs. unfold V2.AddTestMetrics. rewrite Ha, Hg. rewrite drop_0 in Hc.
  split; [reflexivity|]. split; [exact Hc|]. split; [exact HF|]. split; [exact HR|].
  intros He. rewrite He in Hc. destruct gs as [|g gs]; [reflexivity|exfalso].
  apply Forall_cons in HF as [Hb _]. unfold bounded_group in Hb.
  cbn [concat map] in Hc. destruct g; [cbn in Hb; lia|discriminate].
Qed.

Lemma v2_addTestMetrics_fields_witness :
  V2.api v2_client_ex = Some "xoxb-token"
  /\ exists gs,
       concat gs = map (V2.metricValueField (fun _ => "10"))
                     (map_to_list (<["vus" := JNumber 10%float]> (∅ : gmap string jvalue)))
       /\ Forall bounded_group gs.
Proof.
  split; [reflexivity|].
  destruct (v2_addTestMetrics_fields (fun _ => None) (fun _ => "10") map_to_list v2_client_ex
              (<["vus" := JNumber 10%float]> ∅) "xoxb-token" eq_refl)
    as (gs & _ & Hc & HF & _).
  exists gs. split; [exact Hc|exact HF].
Defined.

(** X11: after any sequence of the second version's
    [Configure (token, config, user)] calls, the client holds the token,
    configuration, user and call time of the last call with a non-empty
    token; calls with an empty token change nothing, and with none
    succeeding the client is the one it started as. *)
Theorem v2_configure_sequence (calls : list (string * V2.Config * string * Z)) :
  forall c : V2.Client,
  fold_left (fun c call => let '(tok, cfg, user, now) := call in
                           fst (V2.Configure c tok cfg user now)) calls c
  = match last (List.filter (fun call => negb (String.eqb call.1.1.1 "")) calls) with
    | Some (tok, cfg, user, now) =>
        {| V2.token := tok; V2.api := Some tok; V2.config := cfg;
           V2.dashboardStart := now; V2.executionUser := user |}
    | None => c
    end.
Proof.
  induction calls as [|[[[tok cfg] user] now] calls IH]; intros c; [reflexivity|].
  cbn [fold_left List.filter fst]. rewrite IH.
  unfold V2.Configure.
  destruct (String.eqb_spec tok "") as [Ht|Ht]; cbn [negb fst];
    [destruct (last _) as [[[[]]]|]; reflexivity|].
  rewrite last_cons. destruct (last _) as [[[[]]]|]; reflexivity.
Qed.
